(** * MyJobMatch backend: the search-and-rank pipeline

    A shallow embedding of the job-search agent (package [agent]), of the
    tools it drives (package [tools]), of the text-generation client
    (package [gemini]) and of the data model (package [models]), followed
    by the properties of the pipeline.

    Conventions of the embedding.
    - A Go [string] is a [string] of bytes; a Go [int] is a [Z]; a slice is
      a [list]; a pointer that may be [nil] is an [option].
    - A Go function returning [(T, error)] returns a [result T]; the error
      carries its message.  A function that can also panic returns an
      [outcome T].
    - Calls that leave the process (the language model, the search
      provider, the HTTP client) are fields of an environment [Env]: one
      reply per call.  The order in which the goroutines of a stage deliver
      to their channel is part of the environment too. *)

From Stdlib Require Import Ascii String DecimalString.
From stdpp Require Import base numbers strings list gmap sorting.

Local Open Scope Z_scope.

(** ** Go values *)

Inductive result (A : Type) : Type :=
| Ok (a : A)
| Err (e : string).
Arguments Ok {A} a.
Arguments Err {A} e.

Inductive outcome (A : Type) : Type :=
| Ret (a : A)
| Fail (e : string)
| Panic.
Arguments Ret {A} a.
Arguments Fail {A} e.
Arguments Panic {A}.

Definition lift {A} (r : result A) : outcome A :=
  match r with
  | Ok a => Ret a
  | Err e => Fail e
  end.

(** [len(x)] as a Go [int]. *)
Definition len {A} (l : list A) : Z := Z.of_nat (length l).

(** [fmt.Sprintf("%d", n)]. *)
Definition Sprintf_d (n : Z) : string := NilZero.string_of_int (Z.to_int n).

(** ** Package [strings], on ASCII text *)

Module Strings.

Definition lower_byte (c : ascii) : ascii :=
  let n := nat_of_ascii c in
  if (65 <=? n)%nat && (n <=? 90)%nat then ascii_of_nat (n + 32) else c.

(** [strings.ToLower]; bytes outside [A-Z] are kept. *)
Fixpoint ToLower (s : string) : string :=
  match s with
  | EmptyString => EmptyString
  | String c rest => String (lower_byte c) (ToLower rest)
  end.

(** [strings.Contains]. *)
Definition Contains (s substr : string) : bool :=
  match String.index 0 substr s with
  | Some _ => true
  | None => false
  end.

(** [strings.HasSuffix]. *)
Definition HasSuffix (s suffix : string) : bool :=
  let n := String.length s in
  let k := String.length suffix in
  (k <=? n)%nat && String.eqb (String.substring (n - k) k s) suffix.

(** [strings.Join]. *)
Definition Join (parts : list string) (sep : string) : string :=
  String.concat sep parts.

End Strings.

(** ** Package [models] *)

Module models.

(** [UserProfile].  The fields [Experience] (a float), [Education] and
    [WorkHistory] are read by no function of the pipeline and are left
    out. *)
Record UserProfile : Type := {
  Name : string;
  Email : string;
  Phone : string;
  Summary : string;
  Title : string;
  Skills : list string;
  TechnicalStack : list string;
  Languages : list string;
  PreferredRoles : list string;
  PreferredLocations : list string;
  PreferredRemoteModes : list string;
  PreferredJobTypes : list string;
  MinSalary : Z;
  MaxSalary : Z;
  Currency : string;
  Certifications : list string;
  Achievements : list string
}.

(** [UserProfile{}]. *)
Definition emptyProfile : UserProfile := {|
  Name := ""; Email := ""; Phone := ""; Summary := ""; Title := "";
  Skills := []; TechnicalStack := []; Languages := [];
  PreferredRoles := []; PreferredLocations := [];
  PreferredRemoteModes := []; PreferredJobTypes := [];
  MinSalary := 0; MaxSalary := 0; Currency := "";
  Certifications := []; Achievements := []
|}.

Record JobSearchFilter : Type := {
  Locations : list string;
  RemoteModes : list string;
  JobTypes : list string;
  FilterMinSalary : Z;
  FilterMaxSalary : Z;
  FilterCurrency : string;
  DatePosted : string
}.

Definition noFilter : JobSearchFilter := {|
  Locations := []; RemoteModes := []; JobTypes := [];
  FilterMinSalary := 0; FilterMaxSalary := 0; FilterCurrency := "";
  DatePosted := ""
|}.

Record JobPosting : Type := {
  JobTitle : string;
  Company : string;
  Description : string;
  Location : string;
  WorkType : string;
  SiteSetting : string;
  URL : string;
  Source : string;
  Tags : list string;
  Salary : string;
  JobDatePosted : string;
  ApplicationURL : string;
  Requirements : string;
  Benefits : list string;
  ExperienceLevel : string
}.

Record RankedJob : Type := {
  Posting : JobPosting;
  MatchScore : Z;
  MatchReason : string
}.

Record JobSearchResult : Type := {
  ResultTitle : string;
  ResultURL : string;
  Snippet : string
}.

Record WebSearchResponse : Type := {
  URLs : list string;
  Results : list JobSearchResult
}.

Record FetchPageResponse : Type := {
  HTML : string;
  PageURL : string;
  Error : string
}.

Definition WorkTypeFullTime : string := "full_time".
Definition WorkTypePartTime : string := "part_time".
Definition WorkTypeContract : string := "contract".
Definition WorkTypeInternship : string := "internship".
Definition WorkTypeFreelance : string := "freelance".

Definition SiteSettingWFH : string := "WFH".
Definition SiteSettingWFO : string := "WFO".
Definition SiteSettingHybrid : string := "Hybrid".
Definition SiteSettingUnknown : string := "Unknown".

(** A [case] of a [switch] over strings. *)
Definition case (raw : string) (labels : list string) : bool :=
  bool_decide (raw ∈ labels).

Definition NormalizeWorkType (raw : string) : string :=
  if case raw ["full-time"; "Full-Time"; "Full Time"; "fulltime"; "FULL_TIME"]
  then WorkTypeFullTime
  else if case raw ["part-time"; "Part-Time"; "Part Time"; "parttime"; "PART_TIME"]
  then WorkTypePartTime
  else if case raw ["contract"; "Contract"; "CONTRACT"; "contractor"]
  then WorkTypeContract
  else if case raw ["internship"; "Internship"; "INTERNSHIP"; "intern"]
  then WorkTypeInternship
  else if case raw ["freelance"; "Freelance"; "FREELANCE"]
  then WorkTypeFreelance
  else raw.

Definition NormalizeSiteSetting (raw : string) : string :=
  if case raw ["remote"; "Remote"; "REMOTE"; "work from home"; "Work From Home"; "wfh"]
  then SiteSettingWFH
  else if case raw ["onsite"; "Onsite"; "ONSITE"; "on-site"; "On-Site"; "office";
                    "Office"; "wfo"; "work from office"]
  then SiteSettingWFO
  else if case raw ["hybrid"; "Hybrid"; "HYBRID"; "flexible"]
  then SiteSettingHybrid
  else SiteSettingUnknown.

Definition setPreferredLocations (v : list string) (p : UserProfile) : UserProfile :=
  {| Name := Name p; Email := Email p; Phone := Phone p; Summary := Summary p;
     Title := Title p; Skills := Skills p; TechnicalStack := TechnicalStack p;
     Languages := Languages p; PreferredRoles := PreferredRoles p;
     PreferredLocations := v;
     PreferredRemoteModes := PreferredRemoteModes p;
     PreferredJobTypes := PreferredJobTypes p;
     MinSalary := MinSalary p; MaxSalary := MaxSalary p; Currency := Currency p;
     Certifications := Certifications p; Achievements := Achievements p |}.

Definition setPreferredRemoteModes (v : list string) (p : UserProfile) : UserProfile :=
  {| Name := Name p; Email := Email p; Phone := Phone p; Summary := Summary p;
     Title := Title p; Skills := Skills p; TechnicalStack := TechnicalStack p;
     Languages := Languages p; PreferredRoles := PreferredRoles p;
     PreferredLocations := PreferredLocations p;
     PreferredRemoteModes := v;
     PreferredJobTypes := PreferredJobTypes p;
     MinSalary := MinSalary p; MaxSalary := MaxSalary p; Currency := Currency p;
     Certifications := Certifications p; Achievements := Achievements p |}.

Definition setPreferredJobTypes (v : list string) (p : UserProfile) : UserProfile :=
  {| Name := Name p; Email := Email p; Phone := Phone p; Summary := Summary p;
     Title := Title p; Skills := Skills p; TechnicalStack := TechnicalStack p;
     Languages := Languages p; PreferredRoles := PreferredRoles p;
     PreferredLocations := PreferredLocations p;
     PreferredRemoteModes := PreferredRemoteModes p;
     PreferredJobTypes := v;
     MinSalary := MinSalary p; MaxSalary := MaxSalary p; Currency := Currency p;
     Certifications := Certifications p; Achievements := Achievements p |}.

Definition setSalaryAndCurrency (lo hi : Z) (cur : string) (p : UserProfile) : UserProfile :=
  {| Name := Name p; Email := Email p; Phone := Phone p; Summary := Summary p;
     Title := Title p; Skills := Skills p; TechnicalStack := TechnicalStack p;
     Languages := Languages p; PreferredRoles := PreferredRoles p;
     PreferredLocations := PreferredLocations p;
     PreferredRemoteModes := PreferredRemoteModes p;
     PreferredJobTypes := PreferredJobTypes p;
     MinSalary := lo; MaxSalary := hi; Currency := cur;
     Certifications := Certifications p; Achievements := Achievements p |}.

(** [MergeWithFilters] on a profile that is there: the method assigns
    through its receiver, one field per non-empty filter value. *)
Definition MergeWithFilters (p : UserProfile) (filters : JobSearchFilter) : UserProfile :=
  let p := if 0 <? len (Locations filters)
           then setPreferredLocations (Locations filters) p else p in
  let p := if 0 <? len (RemoteModes filters)
           then setPreferredRemoteModes (RemoteModes filters) p else p in
  let p := if 0 <? len (JobTypes filters)
           then setPreferredJobTypes (JobTypes filters) p else p in
  let p := if 0 <? FilterMinSalary filters
           then setSalaryAndCurrency (FilterMinSalary filters) (MaxSalary p) (Currency p) p
           else p in
  let p := if 0 <? FilterMaxSalary filters
           then setSalaryAndCurrency (MinSalary p) (FilterMaxSalary filters) (Currency p) p
           else p in
  if negb (String.eqb (FilterCurrency filters) "")
  then setSalaryAndCurrency (MinSalary p) (MaxSalary p) (FilterCurrency filters) p
  else p.

(** Whether [MergeWithFilters] writes through its receiver at all: with a
    [nil] receiver the first such write is a nil-pointer dereference. *)
Definition mergeWrites (filters : JobSearchFilter) : bool :=
  (0 <? len (Locations filters)) || (0 <? len (RemoteModes filters))
  || (0 <? len (JobTypes filters)) || (0 <? FilterMinSalary filters)
  || (0 <? FilterMaxSalary filters)
  || negb (String.eqb (FilterCurrency filters) "").

(** The loop over [p.Skills] that stops at index 3. *)
Fixpoint addSkills (i : nat) (skills : list string) (query : string) : string :=
  match skills with
  | [] => query
  | skill :: rest =>
      if (3 <=? i)%nat then query
      else addSkills (S i) rest (query +:+ skill +:+ " ")
  end.

Definition GenerateSearchQuery (p : UserProfile) : string :=
  let query := "" in
  let query :=
    if negb (String.eqb (Title p) "") then query +:+ Title p +:+ " "
    else match PreferredRoles p with
         | role :: _ => query +:+ role +:+ " "
         | [] => query
         end in
  let query := addSkills 0 (Skills p) query in
  let query :=
    match PreferredLocations p with
    | location :: _ => query +:+ location +:+ " "
    | [] => query
    end in
  let query :=
    match PreferredRemoteModes p with
    | mode :: _ => query +:+ mode +:+ " "
    | [] => query
    end in
  query +:+ "job".

(** [NewUserProfileFromQuery]: the query itself is not read. *)
Definition NewUserProfileFromQuery (query : string) (filters : JobSearchFilter)
  : UserProfile :=
  {| Name := ""; Email := ""; Phone := ""; Summary := ""; Title := "";
     Skills := []; TechnicalStack := []; Languages := [];
     PreferredRoles := [];
     PreferredLocations := Locations filters;
     PreferredRemoteModes := RemoteModes filters;
     PreferredJobTypes := JobTypes filters;
     MinSalary := FilterMinSalary filters;
     MaxSalary := FilterMaxSalary filters;
     Currency := FilterCurrency filters;
     Certifications := []; Achievements := [] |}.

End models.

(** ** The world outside the process *)

(** What [model.GenerateContent] followed by [json.Unmarshal] can give
    [RefineProfileWithQuery]. *)
Inductive refine_reply : Type :=
| RefineGenerateFailed (e : string)
| RefineUnparsable
| RefineParsed (updated : models.UserProfile).

(** The same for [ExtractJobFromHTML]. *)
Inductive extract_reply : Type :=
| ExtractGenerateFailed (e : string)
| ExtractNotAJobPosting
| ExtractUnparsable (e : string)
| ExtractParsed (job : models.JobPosting).

(** What [client.Do] and the read of the body give [fetchPage]. *)
Inductive http_reply : Type :=
| RequestError (e : string)
| TransportError (e : string)
| Response (StatusCode : Z) (body : result string).

(** [url.URL], as far as [isPreferredDetailURL] reads it. *)
Record ParsedURL : Type := {
  Host : string;
  QueryGet : string → string
}.

Record PSEItem : Type := {
  ItemTitle : string;
  Link : string;
  ItemSnippet : string
}.

Record Env : Type := {
  (** the text-generation capability; concurrent callers pass the index of
      their goroutine *)
  geminiParseCVFromPDF : list Byte.byte → string → result models.UserProfile;
  geminiParseCV : string → result models.UserProfile;
  geminiRefine : models.UserProfile → string → refine_reply;
  geminiDeriveProfileFromQuery : string → result models.UserProfile;
  geminiExtract : nat → string → string → extract_reply;
  geminiScoreJobMatch :
    nat → models.UserProfile → models.JobPosting → result (Z * string);
  (** the search provider: query, start, num *)
  searchPage : string → Z → Z → result (list PSEItem);
  (** [url.Parse] *)
  urlParse : string → option ParsedURL;
  (** the page-retrieval capability *)
  clientDo : nat → string → http_reply;
  (** the order in which the workers of each stage reach their channel *)
  fetchOrder : list nat;
  extractOrder : list nat;
  scoreOrder : list nat;
  (** [pdqsort_func] on a slice of more than 12 elements *)
  pdqsortLong : list models.RankedJob → list models.RankedJob
}.

(** ** Channels: fan-in of a stage *)

Module Chan.

Definition insertAt {A} (k : nat) (x : A) (l : list A) : list A :=
  take k l ++ x :: drop k l.

(** The values sent by the workers of one stage, in the order in which
    the collecting loop receives them.  [order] gives, worker by worker,
    how many of the later workers deliver before it. *)
Fixpoint received {A} (order : list nat) (sent : list A) : list A :=
  match sent with
  | [] => []
  | x :: rest => insertAt (hd 0%nat order) x (received (tl order) rest)
  end.

End Chan.

(** ** Package [sort] *)

Module sort.

Section Slice.
Context {A : Type}.
(** [less(i, j)] of the caller compares the elements now at [i] and
    [j]; [elemLess] is that comparison on the elements. *)
Variable elemLess : A → A → bool.

Definition Less (data : list A) (i j : nat) : bool :=
  match data !! i, data !! j with
  | Some x, Some y => elemLess x y
  | _, _ => false
  end.

Definition Swap (data : list A) (i j : nat) : list A :=
  match data !! i, data !! j with
  | Some x, Some y => <[i:=y]> (<[j:=x]> data)
  | _, _ => data
  end.

(** [for j := i; j > 0 && data.Less(j, j-1); j-- { data.Swap(j, j-1) }] *)
Fixpoint sink (j : nat) (data : list A) : list A :=
  match j with
  | O => data
  | S j' => if Less data (S j') j' then sink j' (Swap data (S j') j') else data
  end.

(** [insertionSort_func(data, 0, len)]:
    [for i := 1; i < len; i++ { ... }]. *)
Definition insertionSort (data : list A) : list A :=
  foldl (λ d i, sink i d) data (seq 1 (length data - 1)).

Definition maxInsertion : nat := 12.

(** [sort.Slice], as of Go 1.19: [pdqsort_func] sorts a slice of at most
    [maxInsertion] elements by [insertionSort_func] and returns; [long] is
    what it does with a longer slice. *)
Definition Slice (long : list A → list A) (data : list A) : list A :=
  if (length data <=? maxInsertion)%nat then insertionSort data else long data.

End Slice.

End sort.

(** ** Package [gemini] *)

Module gemini.
Import models.

(** [s[:n]] for [n <= len(s)], by bytes. *)
Fixpoint takeBytes (n : N) (s : string) : string :=
  match s with
  | EmptyString => EmptyString
  | String c rest =>
      if (n =? 0)%N then EmptyString else String c (takeBytes (N.pred n) rest)
  end.

Definition strlen (s : string) : Z := Z.of_nat (String.length s).

Section Client.
Variable W : Env.

(** The two values returned: the profile pointer and the error. *)
Definition RefineProfileWithQuery (profile : UserProfile) (query : string)
  : option UserProfile * option string :=
  match geminiRefine W profile query with
  | RefineGenerateFailed e => (None, Some ("failed to generate content: " +:+ e))
  | RefineUnparsable => (Some profile, None)
  | RefineParsed updated => (Some updated, None)
  end.

Definition ExtractJobFromHTML (i : nat) (html url : string) : result JobPosting :=
  let maxLen := 50000 in
  let html := if maxLen <? strlen html then takeBytes (Z.to_N maxLen) html else html in
  match geminiExtract W i html url with
  | ExtractGenerateFailed e => Err ("failed to generate content: " +:+ e)
  | ExtractNotAJobPosting => Err "not a job posting page"
  | ExtractUnparsable e => Err ("failed to parse job JSON: " +:+ e)
  | ExtractParsed job =>
      Ok {| JobTitle := JobTitle job; Company := Company job;
            Description := Description job; Location := Location job;
            WorkType := NormalizeWorkType (WorkType job);
            SiteSetting := NormalizeSiteSetting (SiteSetting job);
            URL := url; Source := "web"; Tags := Tags job;
            Salary := Salary job; JobDatePosted := JobDatePosted job;
            ApplicationURL := ApplicationURL job;
            Requirements := Requirements job; Benefits := Benefits job;
            ExperienceLevel := ExperienceLevel job |}
  end.

End Client.
End gemini.

(** ** Package [tools] *)

Module tools.
Import models.

(** [ToolResult]; [Data] holds the payload that the JSON bytes encode. *)
Record ToolResult (A : Type) : Type := {
  Success : bool;
  Data : option A;
  ToolError : string
}.
Arguments Success {A} _.
Arguments Data {A} _.
Arguments ToolError {A} _.

Definition NewSuccessResult {A} (data : A) : ToolResult A :=
  {| Success := true; Data := Some data; ToolError := "" |}.

Definition NewErrorResult {A} (errMsg : string) : ToolResult A :=
  {| Success := false; Data := None; ToolError := errMsg |}.

(** [json.Unmarshal(result.Data, &response)]. *)
Definition unmarshalData {A} (r : ToolResult A) : result A :=
  match Data r with
  | Some response => Ok response
  | None => Err "unexpected end of JSON input"
  end.

Record SearchInput : Type := {
  Query : string;
  InputLocations : list string;
  InputRemoteModes : list string
}.

Definition jobPortalSites : list string := [
  "site:linkedin.com/jobs/view";
  "site:jobstreet.com";
  "site:jobstreet.co.id";
  "site:dealls.com/loker";
  "site:glints.com/opportunities";
  "site:kalibrr.com/c";
  "site:id.indeed.com"
].

Definition buildQuery (input : SearchInput) : string :=
  let parts := [Query input] in
  let parts :=
    if negb (Strings.Contains (Strings.ToLower (Query input)) "job")
    then parts ++ ["job"] else parts in
  let parts :=
    match InputLocations input with
    | location :: _ => parts ++ [location]
    | [] => parts
    end in
  let parts :=
    match InputRemoteModes input with
    | mode :: _ =>
        if String.eqb mode "WFH" then parts ++ ["remote"]
        else if String.eqb mode "Hybrid" then parts ++ ["hybrid"]
        else parts
    | [] => parts
    end in
  Strings.Join parts " ".

(** *** [cleanHTML] *)

(** [strings.Index]. *)
Definition Index (s substr : string) : option nat := String.index 0 substr s.

(** [s[from:]]. *)
Fixpoint dropBytes (from : nat) (s : string) : string :=
  match from, s with
  | O, _ => s
  | S k, String _ rest => dropBytes k rest
  | S _, EmptyString => EmptyString
  end.

(** [s[:to]]. *)
Fixpoint keepBytes (to : nat) (s : string) : string :=
  match to, s with
  | S k, String c rest => String c (keepBytes k rest)
  | _, _ => EmptyString
  end.

(** One of the two tag-removing loops: [open] is ["<script"] or
    ["<style"], [close] the closing tag.  Every round removes at least
    the closing tag, so [String.length html] rounds are enough. *)
Fixpoint stripBlocks (rounds : nat) (open close html : string) : string :=
  match rounds with
  | O => html
  | S rounds' =>
      match Index (Strings.ToLower html) open with
      | None => html
      | Some start =>
          match Index (Strings.ToLower (dropBytes start html)) close with
          | None => html
          | Some end_ =>
              stripBlocks rounds' open close
                (keepBytes start html
                 +:+ dropBytes (start + end_ + String.length close) html)
          end
      end
  end.

(** [strings.ReplaceAll(s, old, new)] for a non-empty [old]: matches are
    taken left to right and do not overlap; [skip] counts the bytes of
    the current match still to pass. *)
Fixpoint replaceFrom (skip : nat) (old new s : string) : string :=
  match s with
  | EmptyString => EmptyString
  | String c rest =>
      match skip with
      | S k => replaceFrom k old new rest
      | O =>
          if String.prefix old s
          then new +:+ replaceFrom (String.length old - 1) old new rest
          else String c (replaceFrom 0 old new rest)
      end
  end.

Definition ReplaceAll (s old new : string) : string := replaceFrom 0 old new s.

(** [for strings.Contains(html, old) { html = strings.ReplaceAll(html, old, new) }]
    with [new] shorter than [old]. *)
Fixpoint collapse (rounds : nat) (old new html : string) : string :=
  match rounds with
  | O => html
  | S rounds' =>
      if Strings.Contains html old
      then collapse rounds' old new (ReplaceAll html old new)
      else html
  end.

Definition isSpace (c : ascii) : bool :=
  let n := nat_of_ascii c in
  ((9 <=? n)%nat && (n <=? 13)%nat) || (n =? 32)%nat.

Fixpoint trimLeft (s : string) : string :=
  match s with
  | String c rest => if isSpace c then trimLeft rest else s
  | EmptyString => EmptyString
  end.

Fixpoint trimRight (s : string) : string :=
  match s with
  | EmptyString => EmptyString
  | String c rest =>
      match trimRight rest with
      | EmptyString => if isSpace c then EmptyString else String c EmptyString
      | kept => String c kept
      end
  end.

(** [strings.TrimSpace], on ASCII white space. *)
Definition TrimSpace (s : string) : string := trimRight (trimLeft s).

Definition newline : string := String (ascii_of_nat 10) EmptyString.

Definition cleanHTML (html : string) : string :=
  let html := stripBlocks (String.length html) "<script" "</script>" html in
  let html := stripBlocks (String.length html) "<style" "</style>" html in
  let html := collapse (String.length html) "  " " " html in
  let html := collapse (String.length html)
                (newline +:+ newline +:+ newline) (newline +:+ newline) html in
  TrimSpace html.

Section Tools.
Variable W : Env.

(** *** [SearchWebTool] *)

Definition isPreferredDetailURL (link : string) : bool :=
  match urlParse W link with
  | None => true
  | Some u =>
      let host := Strings.ToLower (Host u) in
      if Strings.Contains host "jobstreet" && String.eqb (QueryGet u "jobId") ""
      then false
      else if Strings.Contains host "indeed" && String.eqb (QueryGet u "vjk") ""
      then false
      else true
  end.

(** [seen[link]] on a [map[string]bool]: a missing key reads [false]. *)
Definition seenLink (seen : gmap string bool) (link : string) : bool :=
  default false (seen !! link).

(** The body of [for _, item := range items]. *)
Definition keepItem (st : list PSEItem * gmap string bool) (item : PSEItem)
  : list PSEItem * gmap string bool :=
  let '(allItems, seen) := st in
  if negb (seenLink seen (Link item)) && isPreferredDetailURL (Link item)
  then (allItems ++ [item], <[Link item := true]> seen)
  else st.

(** [for start := 1; start <= 50; start += 10]. *)
Definition pageStarts : list Z := [1; 11; 21; 31; 41].

(** The pages of one site: an error or a short page ends the loop. *)
Fixpoint searchSite (siteQuery : string) (starts : list Z)
    (st : list PSEItem * gmap string bool) : list PSEItem * gmap string bool :=
  match starts with
  | [] => st
  | start :: later =>
      match searchPage W siteQuery start 10 with
      | Err _ => st
      | Ok items =>
          let st := foldl keepItem st items in
          if len items <? 10 then st else searchSite siteQuery later st
      end
  end.

Definition search (query : string) : result (list PSEItem) :=
  let st :=
    foldl (λ st siteFilter, searchSite (query +:+ " " +:+ siteFilter) pageStarts st)
          ([], ∅) jobPortalSites in
  Ok (fst st).

Definition ExecuteSearch (searchInput : SearchInput) : ToolResult WebSearchResponse :=
  let query := buildQuery searchInput in
  match search query with
  | Err e => NewErrorResult ("search failed: " +:+ e)
  | Ok results =>
      NewSuccessResult
        {| URLs := (λ item, Link item) <$> results;
           Results := (λ item, {| ResultTitle := ItemTitle item;
                                  ResultURL := Link item;
                                  Snippet := ItemSnippet item |}) <$> results |}
  end.

Definition SearchWithProfile (profile : option UserProfile) (query : string)
    (filters : JobSearchFilter) : result WebSearchResponse :=
  let query :=
    match profile with
    | Some p => if String.eqb query "" then GenerateSearchQuery p else query
    | None => query
    end in
  let locations :=
    match profile with
    | Some p => if len (Locations filters) =? 0
                then PreferredLocations p else Locations filters
    | None => Locations filters
    end in
  let remoteModes :=
    match profile with
    | Some p => if len (RemoteModes filters) =? 0
                then PreferredRemoteModes p else RemoteModes filters
    | None => RemoteModes filters
    end in
  let result :=
    ExecuteSearch {| Query := query; InputLocations := locations;
                     InputRemoteModes := remoteModes |} in
  if negb (Success result) then Err (ToolError result)
  else unmarshalData result.

(** *** [FetchPageTool] *)

Definition maxBytes : N := 5 * 1024 * 1024.

Definition fetchPage (i : nat) (pageURL : string) : result string :=
  match clientDo W i pageURL with
  | RequestError e => Err ("failed to create request: " +:+ e)
  | TransportError e => Err ("failed to fetch page: " +:+ e)
  | Response StatusCode body =>
      if negb (StatusCode =? 200)
      then Err ("page returned status " +:+ Sprintf_d StatusCode)
      else match body with
           | Err e => Err ("failed to read body: " +:+ e)
           | Ok body => Ok (cleanHTML (gemini.takeBytes maxBytes body))
           end
  end.

Definition ExecuteFetch (i : nat) (url : string) : ToolResult FetchPageResponse :=
  match fetchPage i url with
  | Err e => NewErrorResult ("fetch failed: " +:+ e)
  | Ok html => NewSuccessResult {| HTML := html; PageURL := url; Error := "" |}
  end.

Definition FetchURL (i : nat) (url : string) : result FetchPageResponse :=
  let result := ExecuteFetch i url in
  if negb (Success result)
  then Ok {| HTML := ""; PageURL := url; Error := ToolError result |}
  else unmarshalData result.

(** *** [ExtractJobTool] *)

Definition ExecuteExtract (i : nat) (html url : string) : ToolResult (option JobPosting) :=
  match gemini.ExtractJobFromHTML W i html url with
  | Err e => NewErrorResult ("extraction failed: " +:+ e)
  | Ok job => NewSuccessResult (Some job)
  end.

(** The pointer returned is [response.Job]. *)
Definition ExtractFromHTML (i : nat) (html url : string) : result (option JobPosting) :=
  let result := ExecuteExtract i html url in
  if negb (Success result) then Err (ToolError result)
  else unmarshalData result.

(** *** [ScoreJobTool] *)

Definition ExecuteScore (i : nat) (profile : UserProfile) (job : JobPosting)
  : ToolResult (Z * string) :=
  match geminiScoreJobMatch W i profile job with
  | Err e => NewErrorResult ("scoring failed: " +:+ e)
  | Ok (score, reason) => NewSuccessResult (score, reason)
  end.

Definition ScoreJob (i : nat) (profile : UserProfile) (job : JobPosting)
  : result (Z * string) :=
  let result := ExecuteScore i profile job in
  if negb (Success result) then Err (ToolError result)
  else unmarshalData result.

(** *** [ParseCVTool] *)

Definition ExecuteParseCV (cvText : string) : ToolResult UserProfile :=
  match geminiParseCV W cvText with
  | Err e => NewErrorResult ("CV parsing failed: " +:+ e)
  | Ok profile => NewSuccessResult profile
  end.

Definition ParseCV (cvText : string) : result UserProfile :=
  let result := ExecuteParseCV cvText in
  if negb (Success result) then Err (ToolError result)
  else unmarshalData result.

End Tools.

(** *** [ToolRegistry] *)

(** A value of the interface [Tool]; the JSON messages are their text and
    the schema is its JSON text. *)
Record Tool : Type := {
  Name : string;
  Description : string;
  InputSchema : string;
  Execute : string → result string
}.

(** [ToolRegistry.tools], a [map[string]Tool]. *)
Definition NewToolRegistry : gmap string Tool := ∅.

Definition Register (r : gmap string Tool) (tool : Tool) : gmap string Tool :=
  <[Name tool := tool]> r.

(** [Get] returns [(tool, ok)]. *)
Definition Get (r : gmap string Tool) (name : string) : option Tool := r !! name.

(** [List]: the tools in the order of the iteration over the map, which Go
    leaves unspecified. *)
Definition List (r : gmap string Tool) : list Tool := (map_to_list r).*2.

(** [GetToolDefinitions]: name, description and parameters of each tool. *)
Definition GetToolDefinitions (r : gmap string Tool) : list (string * string * string) :=
  (λ tool, (Name tool, Description tool, InputSchema tool)) <$> List r.

(** The names returned by the [Name] methods of the five tools. *)
Definition SearchWebToolName : string := "search_web_for_jobs".
Definition FetchPageToolName : string := "fetch_page_html".
Definition ExtractJobToolName : string := "extract_job_from_html".
Definition ScoreJobToolName : string := "score_job_match".
Definition ParseCVToolName : string := "parse_cv".

End tools.

(** ** Package [gemini]: the text of an answer *)

Module geminiText.

(** [strings.TrimPrefix]. *)
Definition TrimPrefix (s prefix : string) : string :=
  if String.prefix prefix s then tools.dropBytes (String.length prefix) s else s.

(** [strings.TrimSuffix]. *)
Definition TrimSuffix (s suffix : string) : string :=
  if Strings.HasSuffix s suffix
  then tools.keepBytes (String.length s - String.length suffix) s
  else s.

Definition fence : string := "```".
Definition fenceJSON : string := "```json".

(** [cleanJSON]: remove a markdown code fence around the answer. *)
Definition cleanJSON (text : string) : string :=
  let text := tools.TrimSpace text in
  let text := TrimPrefix text fenceJSON in
  let text := TrimPrefix text fence in
  let text := TrimSuffix text fence in
  tools.TrimSpace text.

End geminiText.

(** ** Package [mcp] *)

Module mcp.

Record ContentItem : Type := {
  Type_ : string;
  Text : string
}.

Record ToolCallResult : Type := {
  Content : list ContentItem;
  IsError : bool
}.

Definition executeTool (registry : gmap string tools.Tool) (name args : string)
  : result string :=
  match tools.Get registry name with
  | None => Err ("tool not found: " +:+ name)
  | Some tool =>
      match tools.Execute tool args with
      | Err e => Err e
      | Ok result => Ok result
      end
  end.

(** The body that [HandleToolsCall] and [handleToolsCall] answer with once
    the parameters are bound. *)
Definition toolCallResult (registry : gmap string tools.Tool) (name args : string)
  : ToolCallResult :=
  match executeTool registry name args with
  | Err e => {| Content := [{| Type_ := "text"; Text := e |}]; IsError := true |}
  | Ok result => {| Content := [{| Type_ := "text"; Text := result |}]; IsError := false |}
  end.

End mcp.

(** ** Package [agent] *)

Module agent.
Import models.

Record Config : Type := {
  MaxJobResults : Z
}.

Record SearchJobsInput : Type := {
  CVText : string;
  CVFileData : list Byte.byte;
  CVFileName : string;
  Query : string;
  Filters : JobSearchFilter
}.

Record SearchStats : Type := {
  URLsFound : Z;
  PagesFetched : Z;
  JobsExtracted : Z;
  JobsScored : Z;
  JobsReturned : Z;
  FetchErrors : Z;
  ExtractErrors : Z
}.

Record SearchJobsOutput : Type := {
  Results : list RankedJob;
  Profile : option UserProfile;
  Stats : SearchStats
}.

Definition isPDFFile (filename : string) : bool :=
  let lower := Strings.ToLower filename in
  Strings.HasSuffix lower ".pdf".

(** [s[:n]] of a slice: a negative bound, or one beyond the slice, panics
    (no caller passes a bound between [len(s)] and [cap(s)]). *)
Definition sliceTo {A} (s : list A) (n : Z) : outcome (list A) :=
  if (n <? 0) || (len s <? n) then Panic else Ret (take (Z.to_nat n) s).

(** [rankedJobs[i].MatchScore > rankedJobs[j].MatchScore]. *)
Definition higherScore (x y : RankedJob) : bool := MatchScore y <? MatchScore x.

Definition maxJobsToExtract : Z := 10.
Definition maxJobsToScore : Z := 30.

(** Step 6, first loop: keep the jobs with [MatchScore >= 50]. *)
Definition filterJobs (rankedJobs : list RankedJob) : list RankedJob :=
  foldl (λ filteredJobs job,
           if 50 <=? MatchScore job then filteredJobs ++ [job] else filteredJobs)
        [] rankedJobs.

(** The loop that counts fetch errors. *)
Definition countFetchErrors (fetchedPages : list FetchPageResponse) : Z :=
  foldl (λ n page, if negb (String.eqb (Error page) "") then n + 1 else n)
        0 fetchedPages.

(** The loop that filters the valid pages. *)
Definition validPagesOf (pages : list FetchPageResponse) : list FetchPageResponse :=
  foldl (λ validPages page,
           if String.eqb (Error page) "" && negb (String.eqb (HTML page) "")
           then validPages ++ [page] else validPages)
        [] pages.

(** The pages for which a worker is started, in the order of the
    [for _, page := range validPages] loop. *)
Definition pagesToExtract (pages : list FetchPageResponse) : list FetchPageResponse :=
  let validPages := validPagesOf pages in
  if maxJobsToExtract <? len validPages
  then take (Z.to_nat maxJobsToExtract) validPages
  else validPages.

Definition fallbackReason : string := "Unable to calculate match score".

(** The effective search query: the caller's, or the planner's. *)
Definition effectiveQuery (input : SearchJobsInput) (profile : UserProfile) : string :=
  if String.eqb (Query input) "" then GenerateSearchQuery profile else Query input.

Section Agent.
Variable cfg : Config.
Variable W : Env.

(** [profile.MergeWithFilters(input.Filters)] through a pointer. *)
Definition mergeThrough (profile : option UserProfile) (filters : JobSearchFilter)
  : outcome (option UserProfile) :=
  match profile with
  | Some p => Ret (Some (MergeWithFilters p filters))
  | None => if mergeWrites filters then Panic else Ret None
  end.

(** [profile, err = a.geminiClient.RefineProfileWithQuery(...)] followed
    by the [if err != nil] that only logs: the value left in
    [profile]. *)
Definition refineStep (profile : UserProfile) (query : string) : option UserProfile :=
  let '(profile, err) := gemini.RefineProfileWithQuery W profile query in
  profile.

Definition buildUserProfile (input : SearchJobsInput) : outcome (option UserProfile) :=
  let built : outcome (option UserProfile) :=
    if (0 <? len (CVFileData input)) && isPDFFile (CVFileName input) then
      match geminiParseCVFromPDF W (CVFileData input) (CVFileName input) with
      | Err e => Fail ("CV PDF parsing failed: " +:+ e)
      | Ok profile =>
          if negb (String.eqb (Query input) "")
          then Ret (refineStep profile (Query input))
          else Ret (Some profile)
      end
    else if negb (String.eqb (CVText input) "") then
      match tools.ParseCV W (CVText input) with
      | Err e => Fail ("CV parsing failed: " +:+ e)
      | Ok profile =>
          if negb (String.eqb (Query input) "")
          then Ret (refineStep profile (Query input))
          else Ret (Some profile)
      end
    else if negb (String.eqb (Query input) "") then
      match geminiDeriveProfileFromQuery W (Query input) with
      | Err _ => Ret (Some emptyProfile)
      | Ok profile => Ret (Some profile)
      end
    else Ret (Some emptyProfile) in
  match built with
  | Ret profile => mergeThrough profile (Filters input)
  | Fail e => Fail e
  | Panic => Panic
  end.

(** What the worker of [pageURL] sends. *)
Definition fetchWorker (i : nat) (pageURL : string) : FetchPageResponse :=
  match tools.FetchURL W i pageURL with
  | Err e => {| HTML := ""; PageURL := pageURL; Error := e |}
  | Ok resp => resp
  end.

Definition fetchPagesConcurrently (urls : list string) : list FetchPageResponse :=
  Chan.received (fetchOrder W) (imap fetchWorker urls).

(** What the worker of page [p] sends, if anything. *)
Definition extractWorker (i : nat) (p : FetchPageResponse) : option JobPosting :=
  match tools.ExtractFromHTML W i (HTML p) (PageURL p) with
  | Err _ => None
  | Ok None => None
  | Ok (Some job) => if negb (String.eqb (JobTitle job) "") then Some job else None
  end.

Definition extractJobsConcurrently (pages : list FetchPageResponse) : list JobPosting :=
  Chan.received (extractOrder W) (omap id (imap extractWorker (pagesToExtract pages))).

(** What the worker of job [j] sends. *)
Definition scoreWorker (profile : UserProfile) (i : nat) (j : JobPosting) : RankedJob :=
  match tools.ScoreJob W i profile j with
  | Err _ => {| Posting := j; MatchScore := 50; MatchReason := fallbackReason |}
  | Ok (score, reason) => {| Posting := j; MatchScore := score; MatchReason := reason |}
  end.

Definition scoreJobsConcurrently (profile : UserProfile) (jobs : list JobPosting)
  : list RankedJob :=
  Chan.received (scoreOrder W) (imap (scoreWorker profile) jobs).

(** Step 6 of [SearchJobs]: filter, sort, limit. *)
Definition rankJobs (rankedJobs : list RankedJob) : outcome (list RankedJob) :=
  let rankedJobs := filterJobs rankedJobs in
  let rankedJobs := sort.Slice higherScore (pdqsortLong W) rankedJobs in
  let maxResults := MaxJobResults cfg in
  if maxResults <? len rankedJobs then sliceTo rankedJobs maxResults
  else Ret rankedJobs.

Definition SearchJobs (input : SearchJobsInput) : outcome SearchJobsOutput :=
  match buildUserProfile input with
  | Fail e => Fail ("failed to build user profile: " +:+ e)
  | Panic => Panic
  | Ret None => Panic (* [profile.Skills] in the log line after Step 1 *)
  | Ret (Some p) =>
      let profile := Some p in
      match tools.SearchWithProfile W profile (effectiveQuery input p) (Filters input) with
      | Err e => Fail ("web search failed: " +:+ e)
      | Ok searchResp =>
          let urlsFound := len (URLs searchResp) in
          if urlsFound =? 0 then
            Ret {| Results := []; Profile := profile;
                   Stats := {| URLsFound := urlsFound; PagesFetched := 0;
                               JobsExtracted := 0; JobsScored := 0;
                               JobsReturned := 0; FetchErrors := 0;
                               ExtractErrors := 0 |} |}
          else
            let fetchedPages := fetchPagesConcurrently (URLs searchResp) in
            let pagesFetched := len fetchedPages in
            let fetchErrors := countFetchErrors fetchedPages in
            let jobs := extractJobsConcurrently fetchedPages in
            let jobsExtracted := len jobs in
            if jobsExtracted =? 0 then
              Ret {| Results := []; Profile := profile;
                     Stats := {| URLsFound := urlsFound; PagesFetched := pagesFetched;
                                 JobsExtracted := jobsExtracted; JobsScored := 0;
                                 JobsReturned := 0; FetchErrors := fetchErrors;
                                 ExtractErrors := 0 |} |}
            else
              let jobs := if maxJobsToScore <? len jobs
                          then take (Z.to_nat maxJobsToScore) jobs else jobs in
              let rankedJobs := scoreJobsConcurrently p jobs in
              let jobsScored := len rankedJobs in
              match rankJobs rankedJobs with
              | Ret rankedJobs =>
                  Ret {| Results := rankedJobs; Profile := profile;
                         Stats := {| URLsFound := urlsFound;
                                     PagesFetched := pagesFetched;
                                     JobsExtracted := jobsExtracted;
                                     JobsScored := jobsScored;
                                     JobsReturned := len rankedJobs;
                                     FetchErrors := fetchErrors;
                                     ExtractErrors := 0 |} |}
              | Fail e => Fail e
              | Panic => Panic
              end
      end
  end.

End Agent.
End agent.

(** ** Package [handlers] *)

Module handlers.
Import models agent.

Record ErrorResponse : Type := {
  ErrorText : string;
  Code : Z;
  Details : string
}.

Record SearchJobsResponse : Type := {
  RespResults : list RankedJob;
  RespProfile : option UserProfile;
  TotalResults : Z;
  Message : string;
  CVSaved : bool
}.

Record CVParseResponse : Type := {
  ParsedProfile : UserProfile
}.

(** What [c.JSON(status, body)] sends. *)
Inductive Reply (A : Type) : Type :=
| ReplyError (status : Z) (body : ErrorResponse)
| ReplyOK (body : A).
Arguments ReplyError {A} status body.
Arguments ReplyOK {A} body.

(** A handler answers, or panics (and [gin.Recovery] takes over). *)
Inductive served (A : Type) : Type :=
| Replied (r : Reply A)
| Panicked.
Arguments Replied {A} r.
Arguments Panicked {A}.

Definition StatusBadRequest : Z := 400.
Definition StatusInternalServerError : Z := 500.

(** The values bound from the request: by [parseMultipartRequest], which
    always binds, or by [ShouldBindJSON]. *)
Record SearchRequest : Type := {
  ReqCVText : string;
  ReqCVFileData : list Byte.byte;
  ReqCVFileName : string;
  ReqQuery : string;
  ReqFilters : JobSearchFilter;
  ReqSaveCV : bool
}.

(** [models.User], as far as the handler reads it. *)
Record User : Type := {
  CVUrl : string
}.

(** The Firestore and Cloud Storage clients, both present as [main] builds
    the handler. *)
Record Services : Type := {
  GetUserByEmail : string → result User;
  DownloadCV : string → result string;
  UploadCVFromBytes : string → list Byte.byte → string → result string;
  UpdateUserCVUrl : string → string → option string
}.

Definition buildResultMessage (stats : SearchStats) : string :=
  if JobsReturned stats =? 0
  then "No matching jobs found. Try adjusting your search criteria."
  else "".

Section Handlers.
Variable cfg : Config.
Variable W : Env.
Variable S : Services.

(** The CV text after the look-up of the saved CV of a logged-in user. *)
Definition resolveCVText (claims : option string) (req : SearchRequest) : string :=
  let cvText := ReqCVText req in
  match claims with
  | Some email =>
      if String.eqb cvText "" && (len (ReqCVFileData req) =? 0) then
        match GetUserByEmail S email with
        | Ok user =>
            if negb (String.eqb (CVUrl user) "") then
              match DownloadCV S (CVUrl user) with
              | Ok cvContent => cvContent
              | Err _ => cvText
              end
            else cvText
        | Err _ => cvText
        end
      else cvText
  | None => cvText
  end.

(** Whether the CV ends up saved to the profile. *)
Definition saveCVToProfile (claims : option string) (req : SearchRequest) : bool :=
  match claims with
  | Some email =>
      if ReqSaveCV req && (0 <? len (ReqCVFileData req)) then
        match UploadCVFromBytes S email (ReqCVFileData req) (ReqCVFileName req) with
        | Err _ => false
        | Ok cvUrl =>
            match UpdateUserCVUrl S email cvUrl with
            | Some _ => false
            | None => true
            end
        end
      else false
  | None => false
  end.

(** [SearchHandler.SearchJobs]; [bound] is [None] when [ShouldBindJSON]
    fails, [claims] the e-mail of the authenticated user. *)
Definition SearchJobs (bound : option SearchRequest) (claims : option string)
  : served SearchJobsResponse :=
  match bound with
  | None =>
      Replied (ReplyError StatusBadRequest
                 {| ErrorText := "Invalid request body"; Code := StatusBadRequest;
                    Details := "" |})
  | Some req =>
      let cvText := resolveCVText claims req in
      let cvFileData := ReqCVFileData req in
      let query := ReqQuery req in
      if String.eqb cvText "" && (len cvFileData =? 0) && String.eqb query "" then
        match claims with
        | Some _ =>
            Replied (ReplyError StatusBadRequest
                       {| ErrorText := "Please provide a search query or upload your CV in your profile";
                          Code := StatusBadRequest; Details := "" |})
        | None =>
            Replied (ReplyError StatusBadRequest
                       {| ErrorText := "Please provide a CV file, CV text, or search query";
                          Code := StatusBadRequest; Details := "" |})
        end
      else
        match agent.SearchJobs cfg W
                {| CVText := cvText; CVFileData := cvFileData;
                   CVFileName := ReqCVFileName req; Query := query;
                   Filters := ReqFilters req |} with
        | Fail e =>
            Replied (ReplyError StatusInternalServerError
                       {| ErrorText := "Job search failed";
                          Code := StatusInternalServerError; Details := e |})
        | Panic => Panicked
        | Ret output =>
            let cvSaved := saveCVToProfile claims req in
            Replied (ReplyOK
                       {| RespResults := Results output;
                          RespProfile := Profile output;
                          TotalResults := len (Results output);
                          Message := buildResultMessage (Stats output);
                          CVSaved := cvSaved |})
        end
  end.

(** What [CVHandler.ParseCV] binds from the request. *)
Inductive cvBinding : Type :=
| CVReadFailed
| CVBindFailed
| CVBound (cvText : string).

(** [CVHandler.ParseCV]: the profile is obtained from a whole run of
    [SearchJobs] with the query ["any job"]. *)
Definition ParseCV (bound : cvBinding) : served CVParseResponse :=
  match bound with
  | CVReadFailed =>
      Replied (ReplyError StatusBadRequest
                 {| ErrorText := "Failed to read CV file"; Code := StatusBadRequest;
                    Details := "" |})
  | CVBindFailed =>
      Replied (ReplyError StatusBadRequest
                 {| ErrorText := "Invalid request body"; Code := StatusBadRequest;
                    Details := "" |})
  | CVBound cvText =>
      if String.eqb cvText "" then
        Replied (ReplyError StatusBadRequest
                   {| ErrorText := "CV text or file is required";
                      Code := StatusBadRequest; Details := "" |})
      else
        match agent.SearchJobs cfg W
                {| CVText := cvText; CVFileData := []; CVFileName := "";
                   Query := "any job"; Filters := noFilter |} with
        | Fail e =>
            (* [output] is [nil] beside an error *)
            Replied (ReplyError StatusInternalServerError
                       {| ErrorText := "CV parsing failed";
                          Code := StatusInternalServerError; Details := e |})
        | Panic => Panicked
        | Ret output =>
            match Profile output with
            | None =>
                Replied (ReplyError StatusInternalServerError
                           {| ErrorText := "Failed to extract profile from CV";
                              Code := StatusInternalServerError; Details := "" |})
            | Some profile => Replied (ReplyOK {| ParsedProfile := profile |})
            end
        end
  end.

End Handlers.
End handlers.

(** ** Concrete worlds and inputs *)

Module Examples.
Import models agent.

Definition profileOf (title : string) (modes : list string) : UserProfile :=
  {| Name := ""; Email := ""; Phone := ""; Summary := ""; Title := title;
     Skills := ["Go"; "SQL"]; TechnicalStack := []; Languages := [];
     PreferredRoles := []; PreferredLocations := ["Jakarta"];
     PreferredRemoteModes := modes; PreferredJobTypes := [];
     MinSalary := 0; MaxSalary := 0; Currency := "";
     Certifications := []; Achievements := [] |}.

Definition backendDev : UserProfile := profileOf "Backend Developer" ["WFH"].

Definition jobAt (title url : string) : JobPosting :=
  {| JobTitle := title; Company := "Acme"; Description := ""; Location := "Jakarta";
     WorkType := "full_time"; SiteSetting := "WFH"; URL := url; Source := "";
     Tags := []; Salary := ""; JobDatePosted := ""; ApplicationURL := "";
     Requirements := ""; Benefits := []; ExperienceLevel := "" |}.

Definition item (n : string) : PSEItem :=
  {| ItemTitle := "Job " +:+ n;
     Link := "https://glints.com/opportunities/jobs/" +:+ n;
     ItemSnippet := "" |}.

(** A world in which the language model answers and every call to the
    search provider fails. *)
Definition searchDown : Env := {|
  geminiParseCVFromPDF := λ _ _, Ok backendDev;
  geminiParseCV := λ _, Ok backendDev;
  geminiRefine := λ p _, RefineParsed p;
  geminiDeriveProfileFromQuery := λ _, Ok backendDev;
  geminiExtract := λ _ _ url, ExtractParsed (jobAt "Go Engineer" url);
  geminiScoreJobMatch := λ _ _ _, Ok (80, "Strong skills match");
  searchPage := λ _ _ _, Err "failed to execute request: connection refused";
  urlParse := λ _, None;
  clientDo := λ _ _, Response 200 (Ok "<html><body>Go Engineer</body></html>");
  fetchOrder := [];
  extractOrder := [];
  scoreOrder := [];
  pdqsortLong := λ l, l
|}.

(** The first portal answers with three results, the others with none;
    pages come back with [status]; [score] is the answer of the scorer to
    each worker. *)
Definition world (status : Z) (refine : UserProfile → refine_reply)
    (score : nat → result (Z * string)) : Env := {|
  geminiParseCVFromPDF := λ _ _, Ok backendDev;
  geminiParseCV := λ _, Ok backendDev;
  geminiRefine := λ p _, refine p;
  geminiDeriveProfileFromQuery := λ _, Ok backendDev;
  geminiExtract := λ _ _ url, ExtractParsed (jobAt "Go Engineer" url);
  geminiScoreJobMatch := λ i _ _, score i;
  searchPage := λ q start _,
    if Strings.Contains q "linkedin" && (start =? 1)
    then Ok [item "1"; item "2"; item "3"] else Ok [];
  urlParse := λ _, None;
  clientDo := λ _ _, Response status (Ok "<html><body>Go  Engineer</body></html>");
  fetchOrder := [1%nat];
  extractOrder := [2%nat; 1%nat];
  scoreOrder := [1%nat];
  pdqsortLong := λ l, l
|}.

(** The scorer fails for the second job and gives 40 to the third. *)
Definition oneSite (status : Z) (refine : UserProfile → refine_reply) : Env :=
  world status refine
    (λ i, match i with
          | 0%nat => Ok (80, "Strong skills match")
          | 1%nat => Err "failed to generate content: deadline exceeded"
          | _ => Ok (40, "Different stack")
          end).

(** The scorer gives 70 to every job. *)
Definition tiedScores : Env := world 200 RefineParsed (λ _, Ok (70, "Good match")).

Definition queryOnly (q : string) : SearchJobsInput :=
  {| CVText := ""; CVFileData := []; CVFileName := ""; Query := q;
     Filters := noFilter |}.

Definition cvAndQuery (q : string) (filters : JobSearchFilter) : SearchJobsInput :=
  {| CVText := "Backend developer, five years of Go"; CVFileData := [];
     CVFileName := ""; Query := q; Filters := filters |}.

Definition inJakarta : JobSearchFilter :=
  {| Locations := ["Jakarta"]; RemoteModes := []; JobTypes := [];
     FilterMinSalary := 0; FilterMaxSalary := 0; FilterCurrency := "";
     DatePosted := "" |}.

Definition defaults : Config := {| MaxJobResults := 50 |}.

(** The language model parses the CV and then fails on the refinement
    call. *)
Definition refineDown : Env :=
  oneSite 200 (λ _, RefineGenerateFailed "context deadline exceeded").

(** The language model fails on every CV. *)
Definition parserDown : Env := {|
  geminiParseCVFromPDF := λ _ _, Err "failed to generate content: unavailable";
  geminiParseCV := λ _, Err "failed to generate content: unavailable";
  geminiRefine := λ p _, RefineParsed p;
  geminiDeriveProfileFromQuery := λ _, Err "failed to generate content: unavailable";
  geminiExtract := λ _ _ url, ExtractParsed (jobAt "Go Engineer" url);
  geminiScoreJobMatch := λ _ _ _, Ok (80, "Strong skills match");
  searchPage := λ _ _ _, Ok [];
  urlParse := λ _, None;
  clientDo := λ _ _, Response 200 (Ok "<html></html>");
  fetchOrder := [];
  extractOrder := [];
  scoreOrder := [];
  pdqsortLong := λ l, l
|}.

Definition cvOnly : SearchJobsInput :=
  {| CVText := "Backend developer, five years of Go"; CVFileData := [];
     CVFileName := ""; Query := ""; Filters := noFilter |}.

Definition withSalary : JobSearchFilter :=
  {| Locations := ["Bandung"]; RemoteModes := ["Hybrid"]; JobTypes := [];
     FilterMinSalary := 8000000; FilterMaxSalary := 0; FilterCurrency := "IDR";
     DatePosted := "" |}.

(** A tool that answers with its input and fails on the empty input. *)
Definition echo (name : string) : tools.Tool :=
  {| tools.Name := name; tools.Description := "echo"; tools.InputSchema := "{}";
     tools.Execute := λ args, if String.eqb args "" then Err "invalid input"
                              else Ok args |}.

Definition fiveTools : list tools.Tool :=
  echo <$> [tools.SearchWebToolName; tools.FetchPageToolName;
            tools.ExtractJobToolName; tools.ScoreJobToolName; tools.ParseCVToolName].

Definition pageOf (url : string) : FetchPageResponse :=
  {| HTML := "<html><body>Go Engineer</body></html>"; PageURL := url; Error := "" |}.

End Examples.


(** ** Vocabulary of the properties *)

(** The insertion sort, read as a function on lists. *)
Section Insertion.
Context {A : Type}.
Variable elemLess : A → A → bool.

(** Where [sink] leaves [x], read from [x] leftwards. *)
Fixpoint placeRev (x : A) (revPre : list A) : list A :=
  match revPre with
  | [] => [x]
  | y :: r => if elemLess x y then y :: placeRev x r else x :: y :: r
  end.

Definition place (x : A) (pre : list A) : list A :=
  reverse (placeRev x (reverse pre)).

(** The slice after all rounds of the outer loop. *)
Definition insertAll (pre rest : list A) : list A :=
  foldl (λ acc x, place x acc) pre rest.
End Insertion.

(** Scores do not increase along the list. *)
Definition descending (l : list models.RankedJob) : Prop :=
  StronglySorted (λ x y, models.MatchScore y ≤ models.MatchScore x) l.

Definition ascending (l : list models.RankedJob) : Prop :=
  StronglySorted (λ x y, models.MatchScore x ≤ models.MatchScore y) l.

Definition hasScore (s : Z) (x : models.RankedJob) : Prop := models.MatchScore x = s.

Global Instance hasScore_dec s x : Decision (hasScore s x).
Proof. unfold hasScore. apply _. Defined.

(** [a] stands before [b] in [l]. *)
Definition before {A} (a b : A) (l : list A) : Prop :=
  ∃ l1 l2 l3, l = l1 ++ a :: l2 ++ b :: l3.

(** A fetch outcome that the extraction stage may use. *)
Definition eligible (page : models.FetchPageResponse) : Prop :=
  models.Error page = "" ∧ models.HTML page ≠ "".

Global Instance eligible_dec page : Decision (eligible page).
Proof. unfold eligible. apply _. Defined.

(** The slice [rankedJobs] at the end of Step 5 of the run of [SearchJobs]
    on [input]: what the scoring stage produced.  It is empty when the run
    does not get that far. *)
Definition scoredInRun (W : Env) (input : agent.SearchJobsInput) : list models.RankedJob :=
  match agent.buildUserProfile W input with
  | Ret (Some p) =>
      match tools.SearchWithProfile W (Some p) (agent.effectiveQuery input p)
              (agent.Filters input) with
      | Ok searchResp =>
          let jobs :=
            agent.extractJobsConcurrently W
              (agent.fetchPagesConcurrently W (models.URLs searchResp)) in
          let jobs := if agent.maxJobsToScore <? len jobs
                      then take (Z.to_nat agent.maxJobsToScore) jobs else jobs in
          agent.scoreJobsConcurrently W p jobs
      | Err _ => []
      end
  | _ => []
  end.

(** The statistics of a run that stops after the search stage. *)
Definition statsAfterSearch (urlsFound : Z) : agent.SearchStats :=
  {| agent.URLsFound := urlsFound; agent.PagesFetched := 0;
     agent.JobsExtracted := 0; agent.JobsScored := 0; agent.JobsReturned := 0;
     agent.FetchErrors := 0; agent.ExtractErrors := 0 |}.

(** The statistics of a run that stops after the extraction stage. *)
Definition statsAfterExtract (urlsFound pagesFetched fetchErrors : Z) : agent.SearchStats :=
  {| agent.URLsFound := urlsFound; agent.PagesFetched := pagesFetched;
     agent.JobsExtracted := 0; agent.JobsScored := 0; agent.JobsReturned := 0;
     agent.FetchErrors := fetchErrors; agent.ExtractErrors := 0 |}.

(** The query planner as the specification words it. *)
Module Planner.
Import models.

(** The hint word of a remote mode, as [buildQuery] maps it. *)
Definition hintWord (mode : string) : list string :=
  if String.eqb mode "WFH" then ["remote"]
  else if String.eqb mode "Hybrid" then ["hybrid"]
  else [].

Definition verbatim (mode : string) : list string := [mode].

(** Title (or first preferred role), up to three skills, first location,
    first remote mode as [mode] renders it, and ["job"], joined by single
    spaces. *)
Definition composed (mode : string → list string) (p : UserProfile) : string :=
  let titleOrRole :=
    if String.eqb (Title p) "" then take 1 (PreferredRoles p) else [Title p] in
  Strings.Join
    (titleOrRole ++ take 3 (Skills p) ++ take 1 (PreferredLocations p)
     ++ (take 1 (PreferredRemoteModes p) ≫= mode) ++ ["job"])
    " ".

End Planner.

(** What the loops of [search] keep true of their state: the links kept
    are distinct, [seen] holds exactly those links, and every item kept
    passed the detail-URL test and satisfies [P]. *)
Definition searchInvariant (W : Env) (P : PSEItem → Prop)
    (st : list PSEItem * gmap string bool) : Prop :=
  NoDup (Link <$> st.1)
  ∧ (∀ link, tools.seenLink st.2 link = true ↔ link ∈ Link <$> st.1)
  ∧ Forall (λ item, tools.isPreferredDetailURL W (Link item) = true ∧ P item) st.1.

(** The provider returned [item] on some page of some portal for
    [query]. *)
Definition returnedFor (W : Env) (query : string) (item : PSEItem) : Prop :=
  ∃ siteFilter start page,
    siteFilter ∈ tools.jobPortalSites
    ∧ start ∈ tools.pageStarts
    ∧ searchPage W (query +:+ " " +:+ siteFilter) start 10 = Ok page
    ∧ item ∈ page.

(** Text of ASCII bytes only, on which the functions of [Strings] and the
    trimming of [tools] are those of Go byte for byte. *)
Fixpoint isASCII (s : string) : bool :=
  match s with
  | EmptyString => true
  | String c rest => (nat_of_ascii c <? 128)%nat && isASCII rest
  end.

(** * Properties *)

(** ** Fan-in *)

Section ChanFacts.
Context {A : Type}.
Implicit Types (l : list A) (order : list nat).

Lemma insertAt_perm k (x : A) l : Chan.insertAt k x l ≡ₚ x :: l.
Proof.
  unfold Chan.insertAt.
  rewrite <- (take_drop k l) at 3.
  by rewrite Permutation_middle.
Qed.

Lemma received_perm order l : Chan.received order l ≡ₚ l.
Proof.
  revert order. induction l as [|x l IH]; intros order; simpl; [done|].
  by rewrite insertAt_perm, IH.
Qed.

(** Every order of arrival is the order of some schedule. *)
Lemma received_any_order l l' : l ≡ₚ l' → ∃ order, Chan.received order l = l'.
Proof.
  revert l'. induction l as [|x l IH]; intros l' Hperm.
  - apply Permutation_nil_l in Hperm as <-. by exists [].
  - assert (Hx : x ∈ l') by (rewrite <- Hperm; apply list_elem_of_here).
    apply list_elem_of_split in Hx as (l1 & l2 & ->).
    apply Permutation_cons_app_inv in Hperm.
    destruct (IH _ Hperm) as [order Horder].
    exists (length l1 :: order). simpl. rewrite Horder.
    unfold Chan.insertAt. by rewrite take_app_length, drop_app_length.
Qed.

Lemma received_length order l : length (Chan.received order l) = length l.
Proof. by rewrite received_perm. Qed.

Lemma received_nil order l : Chan.received order l = [] → l = [].
Proof.
  intros H. apply nil_length_inv. by rewrite <- (received_length order), H.
Qed.
End ChanFacts.

(** ** Insertion sort on a slice *)

Section InsertionSort.
Context {A : Type}.
Variable elemLess : A → A → bool.
Implicit Types (x y : A) (pre post data : list A).
Local Abbreviation place := (place elemLess).
Local Abbreviation placeRev := (placeRev elemLess).
Local Abbreviation insertAll := (insertAll elemLess).

Lemma place_snoc x y pre :
  place x (pre ++ [y]) =
    if elemLess x y then place x pre ++ [y] else pre ++ [y; x].
Proof.
  unfold place. rewrite reverse_snoc. simpl.
  destruct (elemLess x y).
  - by rewrite reverse_cons.
  - by rewrite !reverse_cons, reverse_involutive, <- app_assoc.
Qed.

Lemma lookup_middle_next pre x y post :
  (pre ++ y :: x :: post) !! S (length pre) = Some x.
Proof.
  rewrite lookup_app_r by lia.
  by replace (S (length pre) - length pre)%nat with 1%nat by lia.
Qed.

Lemma lookup_middle_here pre y post : (pre ++ y :: post) !! length pre = Some y.
Proof. by rewrite list_lookup_middle. Qed.

Lemma Swap_adjacent pre x y post :
  sort.Swap (pre ++ y :: x :: post) (S (length pre)) (length pre)
  = pre ++ x :: y :: post.
Proof.
  unfold sort.Swap.
  rewrite lookup_middle_next, lookup_middle_here.
  rewrite insert_app_r_alt by lia.
  rewrite Nat.sub_diag. simpl.
  rewrite insert_app_r_alt by lia.
  by replace (S (length pre) - length pre)%nat with 1%nat by lia.
Qed.

Lemma sink_place pre x post :
  sort.sink elemLess (length pre) (pre ++ x :: post) = place x pre ++ post.
Proof.
  revert x post. induction pre as [|y pre IH] using rev_ind; intros x post.
  - done.
  - rewrite length_app. simpl. rewrite Nat.add_1_r. simpl.
    rewrite <- app_assoc. simpl.
    unfold sort.Less.
    rewrite lookup_middle_next, lookup_middle_here, place_snoc.
    destruct (elemLess x y).
    + rewrite Swap_adjacent, IH. by rewrite <- app_assoc.
    + by rewrite <- app_assoc.
Qed.

Lemma rounds_insertAll pre rest :
  foldl (λ d i, sort.sink elemLess i d) (pre ++ rest) (seq (length pre) (length rest))
  = insertAll pre rest.
Proof.
  revert pre. induction rest as [|x rest IH]; intros pre; simpl.
  - by rewrite app_nil_r.
  - rewrite sink_place.
    replace (place x pre ++ rest) with ((place x pre) ++ rest) by done.
    assert (Hlen : length (place x pre) = S (length pre)).
    { unfold place. rewrite length_reverse.
      clear. induction (reverse pre) as [|y r IHr] eqn:E in pre |- *; simpl.
      - apply (f_equal length) in E. rewrite length_reverse in E. simpl in E.
        by rewrite <- E.
      - apply (f_equal length) in E. rewrite length_reverse in E. simpl in E.
        assert (length (placeRev x r) = S (length r)) as Hr.
        { clear. induction r as [|z r IHz]; simpl; [done|].
          destruct (elemLess x z); simpl; by rewrite ?IHz. }
        destruct (elemLess x y); simpl; rewrite ?Hr; lia. }
    rewrite <- Hlen. apply IH.
Qed.

Lemma insertionSort_insertAll data :
  sort.insertionSort elemLess data = insertAll [] data.
Proof.
  unfold sort.insertionSort. destruct data as [|x rest]; [done|].
  cbn [length]. rewrite Nat.sub_succ, Nat.sub_0_r.
  exact (rounds_insertAll [x] rest).
Qed.

Lemma placeRev_perm x r : placeRev x r ≡ₚ x :: r.
Proof.
  induction r as [|y r IH]; simpl; [done|].
  destruct (elemLess x y); [|done].
  by rewrite IH, Permutation_swap.
Qed.

Lemma place_perm x pre : place x pre ≡ₚ x :: pre.
Proof. unfold place. by rewrite reverse_Permutation, placeRev_perm, reverse_Permutation. Qed.

Lemma insertAll_perm pre rest : insertAll pre rest ≡ₚ pre ++ rest.
Proof.
  revert pre. induction rest as [|x rest IH]; intros pre; simpl.
  - by rewrite app_nil_r.
  - unfold insertAll in *. simpl. rewrite IH, place_perm.
    simpl. apply Permutation_middle.
Qed.

End InsertionSort.

(** ** Sorting by score *)

Section ByScore.
Import models agent.
Implicit Types (x y : RankedJob) (l r : list RankedJob) (s : Z).

Lemma placeRev_ascending x r :
  ascending r → ascending (placeRev higherScore x r).
Proof.
  unfold ascending. induction 1 as [|y r Hr IH Hy]; simpl.
  - repeat constructor.
  - unfold higherScore at 1. destruct (Z.ltb_spec (MatchScore y) (MatchScore x)).
    + constructor; [done|].
      rewrite placeRev_perm. constructor; [lia|done].
    + constructor; [by constructor|].
      constructor; [lia|].
      eapply Forall_impl; [exact Hy|]. simpl. intros; lia.
Qed.

Lemma ascending_reverse r : ascending r → descending (reverse r).
Proof.
  unfold ascending, descending. induction 1 as [|y r Hr IH Hy].
  - constructor.
  - rewrite reverse_cons. apply StronglySorted_app_2; [|done|repeat constructor].
    intros a b Ha Hb. apply list_elem_of_singleton in Hb as ->.
    rewrite elem_of_reverse in Ha.
    by eapply Forall_forall in Hy.
Qed.

Lemma descending_reverse l : descending l → ascending (reverse l).
Proof.
  unfold ascending, descending. induction 1 as [|y r Hr IH Hy].
  - constructor.
  - rewrite reverse_cons. apply StronglySorted_app_2; [|done|repeat constructor].
    intros a b Ha Hb. apply list_elem_of_singleton in Hb as ->.
    rewrite elem_of_reverse in Ha.
    by eapply Forall_forall in Hy.
Qed.

Lemma place_descending x l :
  descending l → descending (place higherScore x l).
Proof.
  intros Hl. unfold place.
  by apply ascending_reverse, placeRev_ascending, descending_reverse.
Qed.

Lemma insertAll_descending l rest :
  descending l → descending (insertAll higherScore l rest).
Proof.
  revert l. induction rest as [|x rest IH]; intros l Hl; simpl; [done|].
  by apply IH, place_descending.
Qed.

(** A job that sinks only passes jobs of a lower score. *)
Lemma placeRev_filter s x r :
  filter (hasScore s) (placeRev higherScore x r)
  = filter (hasScore s) [x] ++ filter (hasScore s) r.
Proof.
  induction r as [|y r IH]; simpl.
  - by rewrite app_nil_r.
  - unfold higherScore at 1. destruct (Z.ltb_spec (MatchScore y) (MatchScore x)).
    + rewrite !filter_cons, IH. rewrite filter_cons, filter_nil.
      unfold hasScore.
      destruct (decide (MatchScore y = s)), (decide (MatchScore x = s)); simpl;
        try done; lia.
    + rewrite (filter_cons _ x (y :: r)), (filter_cons _ x []), filter_nil.
      by destruct (decide (hasScore s x)).
Qed.

Lemma place_filter s x l :
  filter (hasScore s) (place higherScore x l) = filter (hasScore s) (l ++ [x]).
Proof.
  unfold place.
  rewrite filter_reverse, placeRev_filter, reverse_app, <- !filter_reverse.
  by rewrite reverse_involutive, filter_app.
Qed.

Lemma insertAll_filter s l rest :
  filter (hasScore s) (insertAll higherScore l rest) = filter (hasScore s) (l ++ rest).
Proof.
  revert l. induction rest as [|x rest IH]; intros l; simpl.
  - by rewrite app_nil_r.
  - unfold insertAll in *. simpl. rewrite IH.
    rewrite !filter_app, place_filter, filter_app, <- app_assoc. f_equal.
    rewrite (filter_cons _ x rest), (filter_cons _ x []), filter_nil.
    by destruct (decide (hasScore s x)).
Qed.

(** [sort.Slice] with the comparison of [SearchJobs], on a slice short
    enough for the insertion sort. *)
Lemma Slice_short long l :
  (length l ≤ sort.maxInsertion)%nat →
  sort.Slice higherScore long l = insertAll higherScore [] l.
Proof.
  intros Hl. unfold sort.Slice.
  destruct (Nat.leb_spec (length l) sort.maxInsertion); [|lia].
  apply insertionSort_insertAll.
Qed.

Lemma filterJobs_filter l :
  filterJobs l = filter (λ x, 50 ≤ MatchScore x) l.
Proof.
  unfold filterJobs.
  enough (∀ acc, foldl (λ filteredJobs job,
                   if 50 <=? MatchScore job then filteredJobs ++ [job] else filteredJobs)
                 acc l = acc ++ filter (λ x, 50 ≤ MatchScore x) l) as H by apply H.
  induction l as [|x l IH]; intros acc; simpl.
  - by rewrite app_nil_r.
  - rewrite IH, filter_cons.
    destruct (Z.leb_spec 50 (MatchScore x)), (decide (50 ≤ MatchScore x)); try lia.
    + by rewrite <- app_assoc.
    + done.
Qed.

End ByScore.

(** ** The data model: normalization and the query planner *)

Section Models.
Import models.

(** C6.  The canonical site settings [WFH] and [WFO], which the
    extraction prompt asks the model for, and the upper-case work type
    [FULL-TIME] are not among the case labels: normalization sends the
    first two to [Unknown] and passes the third through, whereas their
    variants [wfh], [wfo] and [FULL_TIME] are recognised; a posting for
    which the model answers site setting [WFH] is ingested as
    [Unknown]. *)
Theorem normalize_misses_canonical_values :
  NormalizeSiteSetting SiteSettingWFH = SiteSettingUnknown
  ∧ NormalizeSiteSetting SiteSettingWFO = SiteSettingUnknown
  ∧ NormalizeSiteSetting "wfh" = SiteSettingWFH
  ∧ NormalizeSiteSetting "wfo" = SiteSettingWFO
  ∧ NormalizeWorkType "FULL-TIME" = "FULL-TIME"
  ∧ NormalizeWorkType "FULL_TIME" = WorkTypeFullTime
  ∧ SiteSetting (Examples.jobAt "Go Engineer" "https://glints.com/opportunities/jobs/1")
    = SiteSettingWFH
  ∧ ∃ job,
      gemini.ExtractJobFromHTML Examples.searchDown 0 "<html></html>"
        "https://glints.com/opportunities/jobs/1" = Ok job
      ∧ SiteSetting job = SiteSettingUnknown.
Proof.
  repeat split; try reflexivity.
  eexists. split; reflexivity.
Qed.

Local Abbreviation spaced last l := (foldr (λ part acc, part +:+ " " +:+ acc) last l).

Lemma append_cons c s t : String c s +:+ t = String c (s +:+ t).
Proof. reflexivity. Qed.

Lemma append_nil_r s : s +:+ "" = s.
Proof. induction s as [|c s IH]; [done|]. by rewrite append_cons, IH. Qed.

Lemma append_assoc s t u : (s +:+ t) +:+ u = s +:+ t +:+ u.
Proof. induction s as [|c s IH]; [done|]. by rewrite !append_cons, IH. Qed.

Lemma spaced_last last l : spaced last l = spaced "" l +:+ last.
Proof.
  induction l as [|part l IH]; simpl; [done|].
  by rewrite IH, !append_assoc.
Qed.

Lemma spaced_app last l1 l2 : spaced last (l1 ++ l2) = spaced "" l1 +:+ spaced last l2.
Proof. by rewrite foldr_app, spaced_last. Qed.

Lemma Join_last l last : Strings.Join (l ++ [last]) " " = spaced last l.
Proof.
  unfold Strings.Join. induction l as [|part l IH]; [done|].
  cbn [app foldr]. rewrite <- IH.
  cbn [String.concat]. by destruct (l ++ [last]) eqn:E; [destruct l|].
Qed.

(** The skills loop appends the first three skills, each followed by a
    space. *)
Lemma addSkills_take i skills query :
  addSkills i skills query = query +:+ spaced "" (take (3 - i) skills).
Proof.
  revert i query. induction skills as [|skill rest IH]; intros i query.
  - by rewrite take_nil, append_nil_r.
  - cbn [addSkills]. destruct (Nat.leb_spec 3 i) as [Hi|Hi].
    + replace (3 - i)%nat with 0%nat by lia. by rewrite append_nil_r.
    + rewrite IH. replace (3 - i)%nat with (S (3 - S i)) by lia.
      cbn [take foldr]. by rewrite !append_assoc.
Qed.

(** C5, as amended.  The query planner is a function of the profile
    alone: its result is the title (or, when the title is empty, the
    first preferred role), the first three skills, the first preferred
    location, the first preferred remote mode as it stands, and the word
    [job], joined by single spaces. *)
Theorem GenerateSearchQuery_composed (p : UserProfile) :
  GenerateSearchQuery p = Planner.composed Planner.verbatim p.
Proof.
  unfold GenerateSearchQuery, Planner.composed.
  rewrite !app_assoc, Join_last, <- !app_assoc, !spaced_app.
  rewrite addSkills_take, Nat.sub_0_r.
  assert (Hmode : take 1 (PreferredRemoteModes p) ≫= Planner.verbatim
                  = take 1 (PreferredRemoteModes p)).
  { by destruct (PreferredRemoteModes p). }
  rewrite Hmode. clear Hmode.
  destruct (String.eqb (Title p) ""), (PreferredRoles p), (PreferredLocations p),
    (PreferredRemoteModes p); cbn [negb take foldr];
    rewrite ?append_nil_r, ?append_assoc; reflexivity.
Qed.

(** C5, counterexample.  For a profile whose first preferred remote mode
    is [WFH] the planner writes [WFH], not the hint word [remote]. *)
Lemma GenerateSearchQuery_keeps_mode :
  GenerateSearchQuery Examples.backendDev = "Backend Developer Go SQL Jakarta WFH job"
  ∧ Planner.composed Planner.hintWord Examples.backendDev
    = "Backend Developer Go SQL Jakarta remote job"
  ∧ GenerateSearchQuery Examples.backendDev
    ≠ Planner.composed Planner.hintWord Examples.backendDev.
Proof. repeat split; try reflexivity. discriminate. Qed.
End Models.

(** ** The stages *)

Section Stages.
Import models agent.
Variable W : Env.

(** A loop that appends the elements passing a test is a filter. *)
Lemma foldl_keep {A} (test : A → bool) (P : A → Prop) `{∀ x, Decision (P x)}
    (acc l : list A) :
  (∀ x, test x = true ↔ P x) →
  foldl (λ kept x, if test x then kept ++ [x] else kept) acc l = acc ++ filter P l.
Proof.
  intros Htest. revert acc. induction l as [|x l IH]; intros acc; simpl.
  - by rewrite app_nil_r.
  - rewrite IH, filter_cons. specialize (Htest x).
    destruct (test x), (decide (P x)) as [HP|HP].
    + by rewrite <- app_assoc.
    + destruct HP. by apply Htest.
    + apply Htest in HP. discriminate.
    + done.
Qed.

Lemma validPagesOf_filter pages : validPagesOf pages = filter eligible pages.
Proof.
  unfold validPagesOf.
  rewrite (foldl_keep
             (λ page, String.eqb (Error page) "" && negb (String.eqb (HTML page) ""))
             eligible); [done|].
  intros page. unfold eligible.
  rewrite andb_true_iff, negb_true_iff, String.eqb_eq, String.eqb_neq. done.
Qed.

Lemma pagesToExtract_length pages : (length (pagesToExtract pages) ≤ 10)%nat.
Proof.
  unfold pagesToExtract, maxJobsToExtract, len.
  destruct (Z.ltb_spec 10 (Z.of_nat (length (validPagesOf pages)))).
  - rewrite length_take. lia.
  - lia.
Qed.

Lemma omap_length_le {A B} (f : A → option B) (l : list A) :
  (length (omap f l) ≤ length l)%nat.
Proof. induction l as [|x l IH]; csimpl; [done|]. destruct (f x); csimpl; lia. Qed.

Lemma extractJobsConcurrently_length pages :
  (length (extractJobsConcurrently W pages) ≤ 10)%nat.
Proof.
  unfold extractJobsConcurrently.
  rewrite received_length.
  etrans; [apply omap_length_le|].
  rewrite length_imap. apply pagesToExtract_length.
Qed.

(** C7.  The pages for which the extraction stage starts a worker are
    the first ten, in input order, of the outcomes that carry no fetch
    error and a non-empty HTML: all of them when there are at most ten.
    The stage therefore returns at most ten postings. *)
Theorem extraction_attempts_first_ten_eligible (pages : list FetchPageResponse) :
  pagesToExtract pages = take 10 (filter eligible pages)
  ∧ length (pagesToExtract pages) = (length (filter eligible pages) `min` 10)%nat
  ∧ extractJobsConcurrently W pages
    = Chan.received (extractOrder W)
        (omap id (imap (extractWorker W) (take 10 (filter eligible pages))))
  ∧ (length (extractJobsConcurrently W pages) ≤ 10)%nat.
Proof.
  assert (Hten : pagesToExtract pages = take 10 (filter eligible pages)).
  { unfold pagesToExtract, maxJobsToExtract, len.
    rewrite validPagesOf_filter.
    destruct (Z.ltb_spec 10 (Z.of_nat (length (filter eligible pages)))).
    - done.
    - rewrite take_ge; [done|lia]. }
  split_and!.
  - done.
  - rewrite Hten, length_take. lia.
  - unfold extractJobsConcurrently. by rewrite Hten.
  - apply extractJobsConcurrently_length.
Qed.

Lemma scoreJobsConcurrently_perm profile jobs :
  scoreJobsConcurrently W profile jobs ≡ₚ imap (scoreWorker W profile) jobs.
Proof. apply received_perm. Qed.

Lemma scoreWorker_posting profile i j : Posting (scoreWorker W profile i j) = j.
Proof.
  unfold scoreWorker. by destruct (tools.ScoreJob W i profile j) as [[score reason]|e].
Qed.

Lemma imap_scoreWorker_postings profile jobs :
  Posting <$> imap (scoreWorker W profile) jobs = jobs.
Proof.
  apply list_eq. intros i.
  rewrite list_lookup_fmap, list_lookup_imap.
  destruct (jobs !! i); simpl; [|done].
  by rewrite scoreWorker_posting.
Qed.

(** C8.  The scoring stage returns one ranked job per posting it was
    given, no more and no fewer; a posting whose scoring call fails is
    among them with score 50 and the fixed reason, which is not
    empty. *)
Theorem scoring_keeps_every_posting (profile : UserProfile) (jobs : list JobPosting) :
  length (scoreJobsConcurrently W profile jobs) = length jobs
  ∧ Posting <$> scoreJobsConcurrently W profile jobs ≡ₚ jobs
  ∧ (∀ i j e,
       jobs !! i = Some j →
       tools.ScoreJob W i profile j = Err e →
       {| Posting := j; MatchScore := 50; MatchReason := fallbackReason |}
         ∈ scoreJobsConcurrently W profile jobs)
  ∧ fallbackReason ≠ "".
Proof.
  split_and!.
  - by rewrite scoreJobsConcurrently_perm, length_imap.
  - by rewrite scoreJobsConcurrently_perm, imap_scoreWorker_postings.
  - intros i j e Hj He.
    rewrite scoreJobsConcurrently_perm.
    apply list_elem_of_lookup. exists i.
    rewrite list_lookup_imap, Hj. simpl.
    unfold scoreWorker. by rewrite He.
  - discriminate.
Qed.

(** C10.  A page whose response carries a status other than 200 is
    recorded by the fetch stage as an outcome with empty HTML and an
    error naming the status; the outcome counts as a fetch error and is
    not eligible for extraction. *)
Theorem fetch_accepts_only_status_200
    (urls : list string) (k : nat) (url : string) (status : Z) (body : result string) :
  urls !! k = Some url →
  clientDo W k url = Response status body →
  status ≠ 200 →
  let outcome :=
    {| HTML := ""; PageURL := url;
       Error := "fetch failed: page returned status " +:+ Sprintf_d status |} in
  tools.Success (tools.ExecuteFetch W k url) = false
  ∧ tools.FetchURL W k url = Ok outcome
  ∧ outcome ∈ fetchPagesConcurrently W urls
  ∧ Error outcome ≠ ""
  ∧ countFetchErrors [outcome] = 1
  ∧ ¬ eligible outcome.
Proof.
  intros Hk Hdo Hstatus outcome.
  assert (Hfetch : tools.fetchPage W k url
                   = Err ("page returned status " +:+ Sprintf_d status)).
  { unfold tools.fetchPage. rewrite Hdo.
    by destruct (Z.eqb_spec status 200). }
  assert (HURL : tools.FetchURL W k url = Ok outcome).
  { unfold tools.FetchURL, tools.ExecuteFetch. by rewrite Hfetch. }
  split_and!.
  - unfold tools.ExecuteFetch. by rewrite Hfetch.
  - done.
  - unfold fetchPagesConcurrently. rewrite received_perm.
    apply list_elem_of_lookup. exists k.
    rewrite list_lookup_imap, Hk. simpl.
    unfold fetchWorker. by rewrite HURL.
  - discriminate.
  - reflexivity.
  - intros [Herr _]. discriminate.
Qed.

End Stages.

(** ** The profile builder *)

Section Profile.
Import models agent.
Variable cfg : Config.
Variable W : Env.

(** C4.  When the primary CV artifact (PDF bytes or CV text) parses to
    [profile], a query is present and the refinement call fails, the
    assignment [profile, err = RefineProfileWithQuery(...)] stores the
    [nil] that comes with the error: [buildUserProfile] returns a [nil]
    profile without error, or panics in [MergeWithFilters] when a filter
    is set, and [SearchJobs] panics.  The parsed profile is lost. *)
Theorem refine_failure_loses_profile
    (input : SearchJobsInput) (profile : UserProfile) (e : string) :
  ((0 <? len (CVFileData input)) && isPDFFile (CVFileName input) = true
     ∧ geminiParseCVFromPDF W (CVFileData input) (CVFileName input) = Ok profile)
  ∨ ((0 <? len (CVFileData input)) && isPDFFile (CVFileName input) = false
     ∧ CVText input ≠ ""
     ∧ tools.ParseCV W (CVText input) = Ok profile) →
  Query input ≠ "" →
  geminiRefine W profile (Query input) = RefineGenerateFailed e →
  gemini.RefineProfileWithQuery W profile (Query input)
    = (None, Some ("failed to generate content: " +:+ e))
  ∧ buildUserProfile W input
    = (if mergeWrites (Filters input) then Panic else Ret None)
  ∧ buildUserProfile W input ≠ Ret (Some (MergeWithFilters profile (Filters input)))
  ∧ SearchJobs cfg W input = Panic.
Proof.
  intros Hprimary Hquery Hrefine.
  assert (Hq : negb (String.eqb (Query input) "") = true).
  { by rewrite negb_true_iff, String.eqb_neq. }
  assert (Hstep : refineStep W profile (Query input) = None).
  { unfold refineStep, gemini.RefineProfileWithQuery. by rewrite Hrefine. }
  assert (Hbuild : buildUserProfile W input
                   = if mergeWrites (Filters input) then Panic else Ret None).
  { unfold buildUserProfile.
    destruct Hprimary as [[Hpdf Hparse]|(Hpdf & Htext & Hparse)]; rewrite Hpdf.
    - by rewrite Hparse, Hq, Hstep.
    - apply String.eqb_neq in Htext. rewrite Htext. simpl.
      by rewrite Hparse, Hq, Hstep. }
  split_and!.
  - unfold gemini.RefineProfileWithQuery. by rewrite Hrefine.
  - done.
  - rewrite Hbuild. by destruct (mergeWrites (Filters input)).
  - unfold SearchJobs. rewrite Hbuild. by destruct (mergeWrites (Filters input)).
Qed.

(** By contrast, an answer of the model that does not parse keeps the
    profile. *)
Lemma refine_unparsable_keeps_profile (profile : UserProfile) (query : string) :
  geminiRefine W profile query = RefineUnparsable →
  refineStep W profile query = Some profile.
Proof.
  intros Hrefine. unfold refineStep, gemini.RefineProfileWithQuery. by rewrite Hrefine.
Qed.

End Profile.

(** ** The pipeline *)

Section Pipeline.
Import models agent.
Variable cfg : Config.
Variable W : Env.

Lemma len_nil_inv {A} (l : list A) : len l = 0 → l = [].
Proof. unfold len. intros H. apply nil_length_inv. lia. Qed.

Lemma fetchPagesConcurrently_length urls :
  len (fetchPagesConcurrently W urls) = len urls.
Proof.
  unfold len, fetchPagesConcurrently. by rewrite received_length, length_imap.
Qed.

(** *** The search stage when the provider is down *)

Section ProviderDown.
Hypothesis down : ∀ query start num, ∃ e, searchPage W query start num = Err e.

Lemma searchSite_down siteQuery st :
  tools.searchSite W siteQuery tools.pageStarts st = st.
Proof. simpl. by destruct (down siteQuery 1 10) as [e ->]. Qed.

Lemma search_down query : tools.search W query = Ok [].
Proof.
  unfold tools.search, tools.jobPortalSites. cbn [foldl].
  by rewrite !searchSite_down.
Qed.

Lemma SearchWithProfile_down profile query filters :
  tools.SearchWithProfile W profile query filters
  = Ok {| URLs := []; models.Results := [] |}.
Proof.
  unfold tools.SearchWithProfile, tools.ExecuteSearch.
  by rewrite search_down.
Qed.
End ProviderDown.

(** C1, as amended.  When every call to the search provider fails, each
    failure ends the loop of its portal and nothing else: the search
    stage finds no URL, and a run whose profile was built returns the
    empty list of results with that profile, statistics all zero, and no
    error. *)
Theorem provider_down_gives_empty_result (input : SearchJobsInput) (p : UserProfile) :
  (∀ query start num, ∃ e, searchPage W query start num = Err e) →
  buildUserProfile W input = Ret (Some p) →
  (∀ query, tools.search W query = Ok [])
  ∧ SearchJobs cfg W input
    = Ret {| Results := []; Profile := Some p; Stats := statsAfterSearch 0 |}.
Proof.
  intros Hdown Hbuild. split.
  - intros query. by apply search_down.
  - unfold SearchJobs. rewrite Hbuild.
    by rewrite SearchWithProfile_down.
Qed.

(** C9.  A run whose search stage finds no URL returns at once the empty
    list of results, the profile and statistics that are all zero; a
    run whose extraction stage yields no posting returns the empty list,
    the profile and the statistics gathered so far (URLs found, pages
    fetched, fetch errors), the counters of the later stages being zero.
    Neither is an error. *)
Theorem empty_stage_short_circuits
    (input : SearchJobsInput) (p : UserProfile) (searchResp : WebSearchResponse) :
  buildUserProfile W input = Ret (Some p) →
  tools.SearchWithProfile W (Some p) (effectiveQuery input p) (Filters input)
    = Ok searchResp →
  let urls := URLs searchResp in
  let fetchedPages := fetchPagesConcurrently W urls in
  (urls = [] →
     SearchJobs cfg W input
     = Ret {| Results := []; Profile := Some p; Stats := statsAfterSearch 0 |})
  ∧ (urls ≠ [] →
     extractJobsConcurrently W fetchedPages = [] →
     SearchJobs cfg W input
     = Ret {| Results := []; Profile := Some p;
              Stats := statsAfterExtract (len urls) (len fetchedPages)
                         (countFetchErrors fetchedPages) |}).
Proof.
  intros Hbuild Hsearch urls fetchedPages. split.
  - intros Hurls. unfold SearchJobs. rewrite Hbuild, Hsearch.
    fold urls. by rewrite Hurls.
  - intros Hurls Hjobs. unfold SearchJobs. rewrite Hbuild, Hsearch.
    fold urls. destruct (Z.eqb_spec (len urls) 0) as [Hlen|Hlen].
    { by apply len_nil_inv in Hlen. }
    fold fetchedPages. by rewrite Hjobs.
Qed.

(** *** Ranking *)

Lemma rankJobs_Ret (scored res : list RankedJob) :
  (length scored ≤ sort.maxInsertion)%nat →
  rankJobs cfg W scored = Ret res →
  len res ≤ MaxJobResults cfg
  ∧ ∃ k, res = take k (insertAll higherScore []
                         (filter (λ x, 50 ≤ MatchScore x) scored)).
Proof.
  intros Hshort. unfold rankJobs.
  rewrite filterJobs_filter.
  rewrite Slice_short by (etrans; [apply length_filter|done]).
  set (sorted := insertAll higherScore [] _).
  destruct (Z.ltb_spec (MaxJobResults cfg) (len sorted)) as [Hlt|Hge].
  - unfold sliceTo.
    destruct (Z.ltb_spec (MaxJobResults cfg) 0); simpl; [done|].
    destruct (Z.ltb_spec (len sorted) (MaxJobResults cfg)); simpl; [done|].
    intros [= <-]. split; [|by eexists].
    unfold len in *. rewrite length_take. lia.
  - intros [= <-]. split; [done|].
    exists (length sorted). by rewrite take_ge.
Qed.

Lemma SearchJobs_Ret_inv (input : SearchJobsInput) (out : SearchJobsOutput) :
  SearchJobs cfg W input = Ret out →
  JobsScored (Stats out) = len (scoredInRun W input)
  ∧ JobsReturned (Stats out) = len (Results out)
  ∧ (length (scoredInRun W input) ≤ 10)%nat
  ∧ (Results out = [] ∨ rankJobs cfg W (scoredInRun W input) = Ret (Results out)).
Proof.
  unfold SearchJobs, scoredInRun.
  destruct (buildUserProfile W input) as [[p|]|e|]; try done.
  destruct (tools.SearchWithProfile W (Some p) (effectiveQuery input p) (Filters input))
    as [searchResp|e]; try done.
  destruct (Z.eqb_spec (len (URLs searchResp)) 0) as [Hurls|Hurls].
  { apply len_nil_inv in Hurls. rewrite Hurls.
    intros [= <-]. simpl. split_and!; try done; [lia|by left]. }
  set (jobs := extractJobsConcurrently W _).
  assert (Hjobs : (length jobs ≤ 10)%nat) by apply extractJobsConcurrently_length.
  destruct (Z.eqb_spec (len jobs) 0) as [Hnone|Hsome].
  { apply len_nil_inv in Hnone. rewrite Hnone.
    intros [= <-]. simpl. split_and!; try done; [lia|by left]. }
  unfold maxJobsToScore.
  destruct (Z.ltb_spec 30 (len jobs)) as [Hmany|Hfew].
  { unfold len in Hmany. lia. }
  destruct (rankJobs cfg W (scoreJobsConcurrently W p jobs)) as [res| |] eqn:Hrank;
    try done.
  intros [= <-]. simpl. split_and!; try done.
  - by rewrite scoreJobsConcurrently_perm, length_imap.
  - by right.
Qed.

Lemma filter_split_at {A} (P : A → Prop) `{∀ x, Decision (P x)}
    (l x y : list A) (a : A) :
  filter P l = x ++ a :: y →
  ∃ l1 l2, l = l1 ++ a :: l2 ∧ filter P l1 = x ∧ filter P l2 = y.
Proof.
  revert x. induction l as [|z l IH]; intros x Hl.
  - by destruct x.
  - rewrite filter_cons in Hl. destruct (decide (P z)) as [Hz|Hz].
    + destruct x as [|z' x]; simpl in Hl; injection Hl as <- Hl.
      * by exists [], l.
      * destruct (IH x Hl) as (l1 & l2 & -> & <- & <-).
        exists (z :: l1), l2. by rewrite filter_cons_True.
    + destruct (IH x Hl) as (l1 & l2 & -> & <- & <-).
      exists (z :: l1), l2. by rewrite filter_cons_False.
Qed.

(** Jobs of one score keep their order when a prefix of their sublist
    survives. *)
Lemma before_of_prefix (s : Z) (a b : RankedJob) (res scored : list RankedJob) :
  filter (hasScore s) res `prefix_of` filter (hasScore s) scored →
  MatchScore a = s → MatchScore b = s →
  before a b res → before a b scored.
Proof.
  intros [rest Hpre] Ha Hb (l1 & l2 & l3 & ->).
  rewrite filter_app, filter_cons_True, filter_app, filter_cons_True in Hpre by done.
  rewrite <- !app_assoc in Hpre. simpl in Hpre. rewrite <- app_assoc in Hpre.
  simpl in Hpre.
  apply filter_split_at in Hpre as (k1 & k2 & -> & _ & Hk2).
  apply filter_split_at in Hk2 as (m1 & m2 & -> & _ & _).
  by exists k1, m1, m2.
Qed.

Lemma ranked_facts (scored res : list RankedJob) :
  (length scored ≤ sort.maxInsertion)%nat →
  rankJobs cfg W scored = Ret res →
  len res ≤ Z.min (MaxJobResults cfg) (len scored)
  ∧ Forall (λ job, 50 ≤ MatchScore job) res
  ∧ descending res
  ∧ ∀ s, filter (hasScore s) res `prefix_of` filter (hasScore s) scored.
Proof.
  intros Hshort Hrank.
  destruct (rankJobs_Ret _ _ Hshort Hrank) as [Hmax [k ->]].
  set (kept := filter (λ x, 50 ≤ MatchScore x) scored).
  assert (Hperm : insertAll higherScore [] kept ≡ₚ kept) by apply insertAll_perm.
  split_and!.
  - apply Z.min_glb; [done|]. unfold len.
    rewrite length_take, Hperm.
    pose proof (length_filter (λ x, 50 ≤ MatchScore x) scored). fold kept in H. lia.
  - apply Forall_take. rewrite Hperm.
    apply Forall_forall. by intros x [Hx _]%list_elem_of_filter.
  - assert (Hsorted : descending (insertAll higherScore [] kept)).
    { apply insertAll_descending. constructor. }
    unfold descending in *.
    rewrite <- (take_drop k) in Hsorted.
    by apply StronglySorted_app_1_l in Hsorted.
  - intros s.
    assert (Hclass : filter (hasScore s) (insertAll higherScore [] kept)
                     `prefix_of` filter (hasScore s) scored).
    { rewrite insertAll_filter. simpl. unfold kept.
      rewrite list_filter_filter.
      destruct (decide (50 ≤ s)) as [Hs|Hs].
      - rewrite (list_filter_iff _ (hasScore s)); [done|].
        unfold hasScore. intros x. lia.
      - rewrite (list_filter_iff _ (λ _, False)).
        + assert (Hnone : filter (λ _ : RankedJob, False) scored = []).
          { clear. induction scored as [|x l IH]; [done|].
            by rewrite filter_cons_False by tauto. }
          rewrite Hnone. apply prefix_nil.
        + unfold hasScore. intros x. lia. }
    etrans; [|exact Hclass].
    rewrite <- (take_drop k (insertAll higherScore [] kept)) at 2.
    rewrite filter_app. by apply prefix_app_r.
Qed.

(** C2.  With a result cap that is not negative, a run that returns
    returns at most as many jobs as the cap and as the scoring stage
    produced, each with a score of at least 50, in an order in which the
    scores never increase. *)
Theorem ranking_postcondition (input : SearchJobsInput) (out : SearchJobsOutput) :
  0 ≤ MaxJobResults cfg →
  SearchJobs cfg W input = Ret out →
  len (Results out) ≤ Z.min (MaxJobResults cfg) (JobsScored (Stats out))
  ∧ Forall (λ job, 50 ≤ MatchScore job) (Results out)
  ∧ descending (Results out).
Proof.
  intros Hcap Hrun.
  destruct (SearchJobs_Ret_inv _ _ Hrun) as (Hscored & _ & Hten & [Hnil|Hrank]).
  - rewrite Hnil, Hscored. split_and!; [|constructor..].
    unfold len. simpl. lia.
  - rewrite Hscored.
    apply ranked_facts in Hrank as (? & ? & ? & _); [done|].
    unfold sort.maxInsertion. lia.
Qed.

(** C3.  In every run that returns, jobs of equal score stand in the
    result in the order in which the scoring stage produced them: for
    each score, the returned jobs of that score are the first of the
    scored jobs of that score, in the same order; so a job that precedes
    another of the same score in the result precedes it in the output of
    the scoring stage. *)
Theorem final_sort_keeps_scoring_order (input : SearchJobsInput) (out : SearchJobsOutput) :
  SearchJobs cfg W input = Ret out →
  JobsScored (Stats out) = len (scoredInRun W input)
  ∧ (∀ s, filter (hasScore s) (Results out)
            `prefix_of` filter (hasScore s) (scoredInRun W input))
  ∧ (∀ a b, MatchScore a = MatchScore b →
            before a b (Results out) → before a b (scoredInRun W input)).
Proof.
  intros Hrun.
  destruct (SearchJobs_Ret_inv _ _ Hrun) as (Hscored & _ & Hten & Hcases).
  assert (Hprefix : ∀ s, filter (hasScore s) (Results out)
                           `prefix_of` filter (hasScore s) (scoredInRun W input)).
  { destruct Hcases as [Hnil|Hrank].
    - intros s. rewrite Hnil. apply prefix_nil.
    - apply ranked_facts in Hrank as (_ & _ & _ & Hprefix); [done|].
      unfold sort.maxInsertion. lia. }
  split_and!; [done..|].
  intros a b Hab. by apply (before_of_prefix (MatchScore a)).
Qed.

End Pipeline.

(** ** The properties on concrete runs *)

Section Runs.
Import models agent Examples.

Local Abbreviation golang := (queryOnly "golang developer jakarta").
Local Abbreviation firstURL := "https://glints.com/opportunities/jobs/1".

(** The insertion sort of [sort.Slice] on scores 50, 80, 50, 40, 80. *)
Example insertionSort_ties :
  let job n s := {| Posting := jobAt n firstURL; MatchScore := s; MatchReason := "" |} in
  sort.Slice higherScore (λ l, l)
    [job "a" 50; job "b" 80; job "c" 50; job "d" 40; job "e" 80]
  = [job "b" 80; job "e" 80; job "a" 50; job "c" 50; job "d" 40].
Proof. reflexivity. Qed.

(** A negative result cap: the run that reaches the ranking panics at
    [rankedJobs[:maxResults]], the run that stops early returns. *)
Example negative_cap :
  SearchJobs {| MaxJobResults := -1 |} (oneSite 200 RefineParsed) golang = Panic
  ∧ SearchJobs {| MaxJobResults := -1 |} searchDown golang
    = Ret {| Results := []; Profile := Some backendDev; Stats := statsAfterSearch 0 |}.
Proof. split; vm_compute; reflexivity. Qed.

(** C1, counterexample.  Every call to the provider fails and the run
    does not fail: it returns the empty result. *)
Lemma provider_down_is_no_error :
  (∀ query start num, ∃ e, searchPage searchDown query start num = Err e)
  ∧ SearchJobs defaults searchDown golang
    = Ret {| Results := []; Profile := Some backendDev; Stats := statsAfterSearch 0 |}
  ∧ ¬ ∃ e, SearchJobs defaults searchDown golang = Fail e.
Proof.
  split_and!.
  - intros. eexists. reflexivity.
  - reflexivity.
  - intros [e He]. vm_compute in He. discriminate.
Qed.

Lemma provider_down_gives_empty_result_witness :
  (∀ query start num, ∃ e, searchPage searchDown query start num = Err e)
  ∧ buildUserProfile searchDown golang = Ret (Some backendDev)
  ∧ SearchJobs defaults searchDown golang
    = Ret {| Results := []; Profile := Some backendDev; Stats := statsAfterSearch 0 |}.
Proof.
  assert (Hdown : ∀ query start num,
             ∃ e, searchPage searchDown query start num = Err e).
  { intros. eexists. reflexivity. }
  split; [exact Hdown|]. split; [reflexivity|].
  apply (provider_down_gives_empty_result defaults searchDown golang backendDev Hdown).
  reflexivity.
Defined.

Lemma ranking_postcondition_witness :
  ∃ out,
    0 ≤ MaxJobResults defaults
    ∧ SearchJobs defaults (oneSite 200 RefineParsed) golang = Ret out
    ∧ len (Results out) = 2
    ∧ len (Results out) ≤ Z.min (MaxJobResults defaults) (JobsScored (Stats out))
    ∧ Forall (λ job, 50 ≤ MatchScore job) (Results out)
    ∧ descending (Results out).
Proof.
  eexists. split; [simpl; lia|]. split; [vm_compute; reflexivity|].
  split; [reflexivity|].
  apply (ranking_postcondition defaults (oneSite 200 RefineParsed) golang).
  - simpl. lia.
  - vm_compute. reflexivity.
Defined.

Lemma final_sort_keeps_scoring_order_witness :
  ∃ out,
    SearchJobs defaults tiedScores golang = Ret out
    ∧ MatchScore <$> Results out = [70; 70; 70]
    ∧ Results out = scoredInRun tiedScores golang
    ∧ JobsScored (Stats out) = len (scoredInRun tiedScores golang)
    ∧ (∀ s, filter (hasScore s) (Results out)
              `prefix_of` filter (hasScore s) (scoredInRun tiedScores golang))
    ∧ (∀ a b, MatchScore a = MatchScore b →
              before a b (Results out) →
              before a b (scoredInRun tiedScores golang)).
Proof.
  eexists. split; [vm_compute; reflexivity|].
  split; [reflexivity|]. split; [vm_compute; reflexivity|].
  apply (final_sort_keeps_scoring_order defaults tiedScores golang).
  vm_compute. reflexivity.
Defined.

Lemma refine_failure_loses_profile_witness :
  (0 <? len (CVFileData (cvAndQuery "golang" noFilter)))
    && isPDFFile (CVFileName (cvAndQuery "golang" noFilter)) = false
  ∧ tools.ParseCV refineDown (CVText (cvAndQuery "golang" noFilter)) = Ok backendDev
  ∧ geminiRefine refineDown backendDev "golang"
    = RefineGenerateFailed "context deadline exceeded"
  ∧ buildUserProfile refineDown (cvAndQuery "golang" noFilter) = Ret None
  ∧ buildUserProfile refineDown (cvAndQuery "golang" inJakarta) = Panic
  ∧ SearchJobs defaults refineDown (cvAndQuery "golang" noFilter) = Panic.
Proof.
  split; [reflexivity|]. split; [reflexivity|]. split; [reflexivity|].
  assert (Hat : ∀ filters,
             buildUserProfile refineDown (cvAndQuery "golang" filters)
             = (if mergeWrites filters then Panic else Ret None)
             ∧ SearchJobs defaults refineDown (cvAndQuery "golang" filters) = Panic).
  { intros filters.
    destruct (refine_failure_loses_profile defaults refineDown
                (cvAndQuery "golang" filters) backendDev "context deadline exceeded")
      as (_ & Hbuild & _ & Hrun).
    - right. split; [reflexivity|]. split; [discriminate|reflexivity].
    - discriminate.
    - reflexivity.
    - split; [exact Hbuild|exact Hrun]. }
  split; [exact (proj1 (Hat noFilter))|].
  split; [exact (proj1 (Hat inJakarta))|exact (proj2 (Hat noFilter))].
Defined.

Lemma scoring_keeps_every_posting_witness :
  [jobAt "Go Engineer" firstURL; jobAt "Data Engineer" firstURL] !! 1%nat
    = Some (jobAt "Data Engineer" firstURL)
  ∧ tools.ScoreJob (oneSite 200 RefineParsed) 1 backendDev (jobAt "Data Engineer" firstURL)
    = Err "scoring failed: failed to generate content: deadline exceeded"
  ∧ {| Posting := jobAt "Data Engineer" firstURL; MatchScore := 50;
       MatchReason := fallbackReason |}
      ∈ scoreJobsConcurrently (oneSite 200 RefineParsed) backendDev
          [jobAt "Go Engineer" firstURL; jobAt "Data Engineer" firstURL]
  ∧ length (scoreJobsConcurrently (oneSite 200 RefineParsed) backendDev
              [jobAt "Go Engineer" firstURL; jobAt "Data Engineer" firstURL]) = 2%nat.
Proof.
  split; [reflexivity|]. split; [reflexivity|].
  destruct (scoring_keeps_every_posting (oneSite 200 RefineParsed) backendDev
              [jobAt "Go Engineer" firstURL; jobAt "Data Engineer" firstURL])
    as (Hlen & _ & Hfail & _).
  split; [|exact Hlen].
  apply (Hfail 1%nat (jobAt "Data Engineer" firstURL)
           "scoring failed: failed to generate content: deadline exceeded");
    reflexivity.
Defined.

Lemma empty_stage_short_circuits_witness :
  buildUserProfile searchDown golang = Ret (Some backendDev)
  ∧ tools.SearchWithProfile searchDown (Some backendDev)
      (effectiveQuery golang backendDev) (Filters golang)
    = Ok {| URLs := []; models.Results := [] |}
  ∧ SearchJobs defaults searchDown golang
    = Ret {| Results := []; Profile := Some backendDev; Stats := statsAfterSearch 0 |}
  ∧ SearchJobs defaults (oneSite 204 RefineParsed) golang
    = Ret {| Results := []; Profile := Some backendDev;
             Stats := statsAfterExtract 3 3 3 |}.
Proof.
  split; [reflexivity|]. split; [reflexivity|]. split.
  - apply (proj1 (empty_stage_short_circuits defaults searchDown golang backendDev
                    {| URLs := []; models.Results := [] |} eq_refl eq_refl)).
    reflexivity.
  - destruct (tools.SearchWithProfile (oneSite 204 RefineParsed) (Some backendDev)
                (effectiveQuery golang backendDev) (Filters golang))
      as [searchResp|e] eqn:Hsearch; [|vm_compute in Hsearch; discriminate].
    assert (Hurls : URLs searchResp = [firstURL;
                      "https://glints.com/opportunities/jobs/2";
                      "https://glints.com/opportunities/jobs/3"]).
    { vm_compute in Hsearch. by injection Hsearch as <-. }
    destruct (empty_stage_short_circuits defaults (oneSite 204 RefineParsed) golang
                backendDev searchResp eq_refl Hsearch) as [_ Hextract].
    cbv zeta in Hextract. rewrite Hextract.
    + rewrite Hurls. vm_compute. reflexivity.
    + rewrite Hurls. discriminate.
    + rewrite Hurls. vm_compute. reflexivity.
Defined.

Lemma fetch_accepts_only_status_200_witness :
  [firstURL] !! 0%nat = Some firstURL
  ∧ clientDo (oneSite 204 RefineParsed) 0 firstURL
    = Response 204 (Ok "<html><body>Go  Engineer</body></html>")
  ∧ 204 ≠ 200
  ∧ tools.FetchURL (oneSite 204 RefineParsed) 0 firstURL
    = Ok {| HTML := ""; PageURL := firstURL;
            Error := "fetch failed: page returned status 204" |}
  ∧ {| HTML := ""; PageURL := firstURL;
       Error := "fetch failed: page returned status 204" |}
      ∈ fetchPagesConcurrently (oneSite 204 RefineParsed) [firstURL].
Proof.
  split; [reflexivity|]. split; [reflexivity|]. split; [lia|].
  destruct (fetch_accepts_only_status_200 (oneSite 204 RefineParsed) [firstURL] 0
              firstURL 204 (Ok "<html><body>Go  Engineer</body></html>")
              eq_refl eq_refl ltac:(lia))
    as (_ & HURL & Hin & _).
  split; [exact HURL|exact Hin].
Defined.

End Runs.

(** * Further properties of the code *)

(** ** Package [models] *)

Section ModelsMore.
Import models.

Lemma MergeWithFilters_record (p : UserProfile) (filters : JobSearchFilter) :
  MergeWithFilters p filters
  = {| Name := Name p; Email := Email p; Phone := Phone p; Summary := Summary p;
       Title := Title p; Skills := Skills p; TechnicalStack := TechnicalStack p;
       Languages := Languages p; PreferredRoles := PreferredRoles p;
       PreferredLocations :=
         if 0 <? len (Locations filters) then Locations filters
         else PreferredLocations p;
       PreferredRemoteModes :=
         if 0 <? len (RemoteModes filters) then RemoteModes filters
         else PreferredRemoteModes p;
       PreferredJobTypes :=
         if 0 <? len (JobTypes filters) then JobTypes filters
         else PreferredJobTypes p;
       MinSalary :=
         if 0 <? FilterMinSalary filters then FilterMinSalary filters else MinSalary p;
       MaxSalary :=
         if 0 <? FilterMaxSalary filters then FilterMaxSalary filters else MaxSalary p;
       Currency :=
         if negb (String.eqb (FilterCurrency filters) "") then FilterCurrency filters
         else Currency p;
       Certifications := Certifications p; Achievements := Achievements p |}.
Proof.
  destruct p. unfold MergeWithFilters.
  destruct (0 <? len (Locations filters)), (0 <? len (RemoteModes filters)),
    (0 <? len (JobTypes filters)), (0 <? FilterMinSalary filters),
    (0 <? FilterMaxSalary filters), (negb (String.eqb (FilterCurrency filters) ""));
    reflexivity.
Qed.

Lemma positive_len_decide {A B} (l : list A) (x y : B) :
  (if 0 <? len l then x else y) = (if decide (l = []) then y else x).
Proof. by destruct l. Qed.

Lemma positive_decide {B} (n : Z) (x y : B) :
  (if 0 <? n then x else y) = (if decide (0 < n) then x else y).
Proof. destruct (Z.ltb_spec 0 n); case_decide; done || lia. Qed.

Lemma nonempty_decide {B} (c : string) (x y : B) :
  (if negb (String.eqb c "") then x else y) = (if decide (c = "") then y else x).
Proof. destruct (String.eqb_spec c ""); case_decide; done. Qed.

(** X1.  Merging filters into a profile gives every preference for which
    the filter has a value (a non-empty list, a positive salary, a
    non-empty currency) the value of the filter, keeps the value of the
    profile otherwise, and touches no other field; merging the same
    filters again changes nothing. *)
Theorem MergeWithFilters_precedence (p : UserProfile) (filters : JobSearchFilter) :
  let merged := MergeWithFilters p filters in
  PreferredLocations merged
    = (if decide (Locations filters = []) then PreferredLocations p else Locations filters)
  ∧ PreferredRemoteModes merged
    = (if decide (RemoteModes filters = []) then PreferredRemoteModes p
       else RemoteModes filters)
  ∧ PreferredJobTypes merged
    = (if decide (JobTypes filters = []) then PreferredJobTypes p else JobTypes filters)
  ∧ MinSalary merged
    = (if decide (0 < FilterMinSalary filters) then FilterMinSalary filters else MinSalary p)
  ∧ MaxSalary merged
    = (if decide (0 < FilterMaxSalary filters) then FilterMaxSalary filters else MaxSalary p)
  ∧ Currency merged
    = (if decide (FilterCurrency filters = "") then Currency p else FilterCurrency filters)
  ∧ (Name merged, Email merged, Phone merged, Summary merged, Title merged)
    = (Name p, Email p, Phone p, Summary p, Title p)
  ∧ (Skills merged, TechnicalStack merged, Languages merged, PreferredRoles merged,
     Certifications merged, Achievements merged)
    = (Skills p, TechnicalStack p, Languages p, PreferredRoles p,
       Certifications p, Achievements p)
  ∧ MergeWithFilters merged filters = merged.
Proof.
  intros merged. subst merged.
  split_and!; try (rewrite MergeWithFilters_record; cbn;
                   first [apply positive_len_decide | apply positive_decide
                         | apply nonempty_decide | reflexivity]).
  rewrite (MergeWithFilters_record (MergeWithFilters p filters)).
  rewrite !MergeWithFilters_record. cbn.
  f_equal.
  - by destruct (0 <? len (Locations filters)).
  - by destruct (0 <? len (RemoteModes filters)).
  - by destruct (0 <? len (JobTypes filters)).
  - by destruct (0 <? FilterMinSalary filters).
  - by destruct (0 <? FilterMaxSalary filters).
  - by destruct (negb (String.eqb (FilterCurrency filters) "")).
Qed.

(** X2.  For filters whose salary bounds are not negative, the profile
    that [NewUserProfileFromQuery] builds is the empty profile with the
    filters merged in; the query plays no part. *)
Theorem NewUserProfileFromQuery_merge (query : string) (filters : JobSearchFilter) :
  0 ≤ FilterMinSalary filters →
  0 ≤ FilterMaxSalary filters →
  NewUserProfileFromQuery query filters = MergeWithFilters emptyProfile filters.
Proof.
  intros Hlo Hhi. rewrite MergeWithFilters_record.
  unfold NewUserProfileFromQuery. cbn. f_equal.
  - by destruct (Locations filters).
  - by destruct (RemoteModes filters).
  - by destruct (JobTypes filters).
  - destruct (Z.ltb_spec 0 (FilterMinSalary filters)); [done|lia].
  - destruct (Z.ltb_spec 0 (FilterMaxSalary filters)); [done|lia].
  - by destruct (String.eqb_spec (FilterCurrency filters) "").
Qed.

End ModelsMore.

(** ** Strings *)

Section StringsMore.

Lemma length_append (a b : string) :
  String.length (a +:+ b) = (String.length a + String.length b)%nat.
Proof. induction a as [|c a IH]; [done|]. rewrite append_cons. simpl. by rewrite IH. Qed.

Lemma substring_all (b : string) : String.substring 0 (String.length b) b = b.
Proof. induction b as [|c b IH]; [done|]. simpl. by rewrite IH. Qed.

Lemma substring_app_r (a b : string) :
  String.substring (String.length a) (String.length b) (a +:+ b) = b.
Proof.
  induction a as [|c a IH]; [apply substring_all|].
  rewrite append_cons. exact IH.
Qed.

Lemma Contains_app_r (a b : string) : b ≠ "" → Strings.Contains (a +:+ b) b = true.
Proof.
  intros Hb. unfold Strings.Contains.
  destruct (String.index 0 b (a +:+ b)) eqn:Hindex; [done|].
  destruct (String.index_correct3 0 (String.length a) b (a +:+ b) Hindex Hb).
  - lia.
  - apply substring_app_r.
Qed.

Lemma ToLower_app (a b : string) :
  Strings.ToLower (a +:+ b) = Strings.ToLower a +:+ Strings.ToLower b.
Proof.
  induction a as [|c a IH]; [done|].
  rewrite append_cons. simpl. by rewrite IH.
Qed.

Lemma HasSuffix_app (a b : string) : Strings.HasSuffix (a +:+ b) b = true.
Proof.
  unfold Strings.HasSuffix. rewrite length_append.
  replace (String.length a + String.length b - String.length b)%nat
    with (String.length a) by lia.
  rewrite substring_app_r, String.eqb_refl, andb_true_r.
  apply Nat.leb_le. lia.
Qed.

End StringsMore.

Section NormalizeMore.
Import models.

Lemma NormalizeWorkType_cases (raw : string) :
  NormalizeWorkType raw = raw
  ∨ NormalizeWorkType raw
      ∈ [WorkTypeFullTime; WorkTypePartTime; WorkTypeContract;
         WorkTypeInternship; WorkTypeFreelance].
Proof.
  unfold NormalizeWorkType.
  repeat match goal with
         | |- context [if case raw ?labels then _ else _] =>
             destruct (case raw labels); [right; set_solver|]
         end.
  by left.
Qed.

Lemma NormalizeWorkType_twice (raw : string) :
  NormalizeWorkType (NormalizeWorkType raw) = NormalizeWorkType raw.
Proof.
  destruct (NormalizeWorkType_cases raw) as [Hsame|Hin]; [by rewrite !Hsame|].
  repeat (apply elem_of_cons in Hin as [->|Hin]; [reflexivity|]).
  by apply elem_of_nil in Hin.
Qed.

Lemma NormalizeSiteSetting_enum (raw : string) :
  NormalizeSiteSetting raw
    ∈ [SiteSettingWFH; SiteSettingWFO; SiteSettingHybrid; SiteSettingUnknown].
Proof.
  unfold NormalizeSiteSetting.
  repeat match goal with
         | |- context [if case raw ?labels then _ else _] =>
             destruct (case raw labels); [set_solver|]
         end.
  set_solver.
Qed.

(** X3.  Normalizing a work type twice gives what normalizing it once
    gives; the result is the raw string itself or one of the five work
    types of the data model, and these five are left as they are. *)
Theorem NormalizeWorkType_idempotent (raw : string) :
  NormalizeWorkType (NormalizeWorkType raw) = NormalizeWorkType raw
  ∧ (NormalizeWorkType raw = raw
     ∨ NormalizeWorkType raw
         ∈ [WorkTypeFullTime; WorkTypePartTime; WorkTypeContract;
            WorkTypeInternship; WorkTypeFreelance])
  ∧ Forall (λ workType, NormalizeWorkType workType = workType)
      [WorkTypeFullTime; WorkTypePartTime; WorkTypeContract; WorkTypeInternship;
       WorkTypeFreelance].
Proof.
  split_and!.
  - apply NormalizeWorkType_twice.
  - apply NormalizeWorkType_cases.
  - repeat constructor.
Qed.

(** X4.  Whatever the model answers, a posting that [ExtractJobFromHTML]
    accepts carries the URL it was asked for, the source [web], a site
    setting among the four of the data model and a normalized work type;
    the answer is only ever looked at through its first 50000 bytes of
    HTML. *)
Theorem ExtractJobFromHTML_normalizes (W : Env) (i : nat) (html url : string)
    (job : JobPosting) :
  gemini.ExtractJobFromHTML W i html url = Ok job →
  URL job = url
  ∧ Source job = "web"
  ∧ SiteSetting job
      ∈ [SiteSettingWFH; SiteSettingWFO; SiteSettingHybrid; SiteSettingUnknown]
  ∧ NormalizeWorkType (WorkType job) = WorkType job
  ∧ ∃ raw shown,
      geminiExtract W i shown url = ExtractParsed raw
      ∧ (shown = html ∨ shown = gemini.takeBytes 50000 html)
      ∧ JobTitle job = JobTitle raw
      ∧ SiteSetting job = NormalizeSiteSetting (SiteSetting raw)
      ∧ WorkType job = NormalizeWorkType (WorkType raw).
Proof.
  unfold gemini.ExtractJobFromHTML.
  set (shown := if 50000 <? gemini.strlen html then _ else html).
  destruct (geminiExtract W i shown url) as [e| |e|raw] eqn:Hreply; try done.
  intros [= <-]. simpl. split_and!; [done|done| | |].
  - apply NormalizeSiteSetting_enum.
  - apply NormalizeWorkType_twice.
  - exists raw, shown. split_and!; try done.
    unfold shown. destruct (50000 <? gemini.strlen html); [by right|by left].
Qed.

End NormalizeMore.

(** ** The query sent to the search provider *)

Section QueryMore.
Import models.

(** X5.  The planner's query always names the word [job] and is never
    empty, so the search tool adds no second [job] to it: for a profile
    searched without a caller's query or filters, the string sent to the
    provider is the planner's query, then the first preferred location
    (again), then the hint word of the first preferred remote mode. *)
Theorem planner_query_through_buildQuery (p : UserProfile) :
  Strings.Contains (Strings.ToLower (GenerateSearchQuery p)) "job" = true
  ∧ GenerateSearchQuery p ≠ ""
  ∧ tools.buildQuery
      {| tools.Query := GenerateSearchQuery p;
         tools.InputLocations := PreferredLocations p;
         tools.InputRemoteModes := PreferredRemoteModes p |}
    = Strings.Join ([GenerateSearchQuery p] ++ take 1 (PreferredLocations p)
                    ++ (take 1 (PreferredRemoteModes p) ≫= Planner.hintWord)) " ".
Proof.
  assert (Hshape : ∃ q, GenerateSearchQuery p = q +:+ "job").
  { unfold GenerateSearchQuery. by eexists. }
  destruct Hshape as [q Hq].
  assert (Hjob : Strings.Contains (Strings.ToLower (GenerateSearchQuery p)) "job" = true).
  { rewrite Hq, ToLower_app. by apply Contains_app_r. }
  split_and!.
  - done.
  - rewrite Hq. by destruct q.
  - unfold tools.buildQuery. cbn [tools.Query tools.InputLocations tools.InputRemoteModes].
    rewrite Hjob. cbn [negb].
    destruct (PreferredLocations p) as [|location ?],
      (PreferredRemoteModes p) as [|mode ?]; try reflexivity;
      cbn [take mbind list_bind app]; unfold Planner.hintWord;
      destruct (String.eqb mode "WFH"), (String.eqb mode "Hybrid"); reflexivity.
Qed.

End QueryMore.

(** ** The search tool *)

Section SearchMore.
Import models.
Variable W : Env.

Lemma seenLink_insert (seen : gmap string bool) (key link : string) :
  tools.seenLink (<[key := true]> seen) link = true
  ↔ link = key ∨ tools.seenLink seen link = true.
Proof.
  unfold tools.seenLink. destruct (decide (key = link)) as [->|Hne].
  - rewrite lookup_insert_eq. simpl. split; [by left|done].
  - rewrite lookup_insert_ne by done. split; [by right|].
    by intros [->|?].
Qed.

Lemma keepItem_invariant P st item :
  searchInvariant W P st → P item → searchInvariant W P (tools.keepItem W st item).
Proof.
  destruct st as [allItems seen]. intros (Hdistinct & Hseen & Hkept) HP.
  unfold tools.keepItem. simpl in *.
  destruct (tools.seenLink seen (Link item)) eqn:Hlink; simpl; [done|].
  destruct (tools.isPreferredDetailURL W (Link item)) eqn:Hdetail; [|done].
  split_and!; simpl.
  - rewrite fmap_app. apply NoDup_app. split_and!; [done| |apply NoDup_singleton].
    intros link Hin ->%list_elem_of_singleton.
    apply Hseen in Hin. congruence.
  - intros link. rewrite seenLink_insert, fmap_app, elem_of_app, Hseen.
    simpl. rewrite list_elem_of_singleton. tauto.
  - apply Forall_app. split; [done|]. by repeat constructor.
Qed.

Lemma keepItems_invariant P st items :
  searchInvariant W P st → Forall P items →
  searchInvariant W P (foldl (tools.keepItem W) st items).
Proof.
  intros Hst Hitems. revert st Hst.
  induction Hitems as [|item items HP _ IH]; intros st Hst; simpl; [done|].
  by apply IH, keepItem_invariant.
Qed.

Lemma searchSite_invariant P siteQuery starts st :
  (∀ start page, start ∈ starts →
     searchPage W siteQuery start 10 = Ok page → Forall P page) →
  searchInvariant W P st →
  searchInvariant W P (tools.searchSite W siteQuery starts st).
Proof.
  revert st. induction starts as [|start later IH]; intros st Hpages Hst; simpl; [done|].
  destruct (searchPage W siteQuery start 10) as [page|e] eqn:Hpage; [|done].
  assert (Hkept : searchInvariant W P (foldl (tools.keepItem W) st page)).
  { apply keepItems_invariant; [done|]. eapply Hpages; [left|done]. }
  destruct (len page <? 10); [done|].
  apply IH; [|done].
  intros start' page' Hin. apply Hpages. by right.
Qed.

Lemma searchSites_invariant P query sites st :
  (∀ siteFilter start page, siteFilter ∈ sites → start ∈ tools.pageStarts →
     searchPage W (query +:+ " " +:+ siteFilter) start 10 = Ok page → Forall P page) →
  searchInvariant W P st →
  searchInvariant W P
    (foldl (λ st siteFilter,
              tools.searchSite W (query +:+ " " +:+ siteFilter) tools.pageStarts st)
           st sites).
Proof.
  revert st. induction sites as [|siteFilter sites IH]; intros st Hpages Hst;
    cbn [foldl]; [done|].
  apply IH.
  - intros siteFilter' start page Hin. apply Hpages. by right.
  - apply searchSite_invariant; [|done].
    intros start page Hstart. apply Hpages; [left|done].
Qed.

(** X6.  The search never fails, and among the items it returns no two
    share a link: every item passed the detail-URL test and was returned
    by the provider on one of the five pages of one of the seven portals.
    The URLs that [SearchWithProfile] hands to the pipeline are therefore
    distinct. *)
Theorem search_results_distinct (query : string) :
  ∃ items,
    tools.search W query = Ok items
    ∧ NoDup (Link <$> items)
    ∧ Forall (λ item, tools.isPreferredDetailURL W (Link item) = true) items
    ∧ Forall (returnedFor W query) items
    ∧ ∀ profile filters,
        ∃ searchResp,
          tools.SearchWithProfile W profile query filters = Ok searchResp
          ∧ NoDup (URLs searchResp)
          ∧ ResultURL <$> models.Results searchResp = URLs searchResp.
Proof.
  assert (Hsearch : ∀ q, ∃ items,
             tools.search W q = Ok items
             ∧ NoDup (Link <$> items)
             ∧ Forall (λ item, tools.isPreferredDetailURL W (Link item) = true
                               ∧ returnedFor W q item) items).
  { intros q. unfold tools.search. eexists. split; [reflexivity|].
    assert (Hinv : searchInvariant W (returnedFor W q)
              (foldl (λ st siteFilter,
                        tools.searchSite W (q +:+ " " +:+ siteFilter) tools.pageStarts st)
                     ([], ∅) tools.jobPortalSites)).
    { apply searchSites_invariant.
      - intros siteFilter start page Hsite Hstart Hpage.
        apply Forall_forall. intros item Hitem.
        by exists siteFilter, start, page.
      - split_and!; simpl; [constructor| |constructor].
        intros link. unfold tools.seenLink. rewrite lookup_empty. simpl.
        rewrite elem_of_nil. naive_solver. }
    destruct Hinv as (Hdistinct & _ & Hkept). done. }
  destruct (Hsearch query) as (items & Hitems & Hdistinct & Hkept).
  exists items. split_and!; [done|done| | |].
  - eapply Forall_impl; [exact Hkept|]. by intros item [? _].
  - eapply Forall_impl; [exact Hkept|]. by intros item [_ ?].
  - intros profile filters. unfold tools.SearchWithProfile, tools.ExecuteSearch.
    set (built := tools.buildQuery _).
    destruct (Hsearch built) as (found & -> & Hfound & _).
    eexists. split; [reflexivity|]. simpl. split; [done|].
    rewrite <- list_fmap_compose. done.
Qed.

End SearchMore.

(** ** The fetch and extraction stages *)

Section StagesMore.
Import models agent.
Variable W : Env.

Lemma fetchWorker_cases (i : nat) (url : string) :
  (∃ body, clientDo W i url = Response 200 (Ok body)
           ∧ fetchWorker W i url
             = {| HTML := tools.cleanHTML (gemini.takeBytes tools.maxBytes body);
                  PageURL := url; Error := "" |})
  ∨ ((∀ body, clientDo W i url ≠ Response 200 (Ok body))
     ∧ ∃ e, fetchWorker W i url
            = {| HTML := ""; PageURL := url; Error := "fetch failed: " +:+ e |}).
Proof.
  unfold fetchWorker, tools.FetchURL, tools.ExecuteFetch, tools.fetchPage.
  destruct (clientDo W i url) as [e|e|status [body|e]] eqn:Hdo.
  - right. split; [done|]. by eexists.
  - right. split; [done|]. by eexists.
  - destruct (Z.eqb_spec status 200) as [->|Hstatus].
    + left. by exists body.
    + right. split; [congruence|]. by eexists.
  - right. split; [done|].
    destruct (Z.eqb_spec status 200); by eexists.
Qed.


Lemma countFetchErrors_filter (pages : list FetchPageResponse) :
  countFetchErrors pages = len (filter (λ page, Error page ≠ "") pages).
Proof.
  unfold countFetchErrors.
  enough (∀ n, foldl (λ n page, if negb (String.eqb (Error page) "") then n + 1 else n)
                 n pages
               = n + len (filter (λ page, Error page ≠ "") pages)) as H by apply H.
  unfold len. induction pages as [|page pages IH]; intros n; simpl; [lia|].
  rewrite IH, filter_cons.
  destruct (String.eqb_spec (Error page) ""), (decide (Error page ≠ "")); simpl;
    try done; lia.
Qed.


Lemma pagesToExtract_take (pages : list FetchPageResponse) :
  pagesToExtract pages = take 10 (filter eligible pages).
Proof.
  unfold pagesToExtract, maxJobsToExtract, len.
  rewrite validPagesOf_filter.
  destruct (Z.ltb_spec 10 (Z.of_nat (length (filter eligible pages)))); [done|].
  rewrite take_ge; [done|lia].
Qed.

(** X9.  Every posting that the extraction stage returns has a title, was
    extracted from one of the first ten eligible pages, carries the URL of
    that page and the source [web] whatever the model answered, and has a
    site setting among the four of the data model and a normalized work
    type. *)
Theorem extracted_postings (pages : list FetchPageResponse) (job : JobPosting) :
  job ∈ extractJobsConcurrently W pages →
  JobTitle job ≠ ""
  ∧ Source job = "web"
  ∧ (∃ page, page ∈ take 10 (filter eligible pages)
             ∧ eligible page ∧ URL job = PageURL page)
  ∧ SiteSetting job
      ∈ [SiteSettingWFH; SiteSettingWFO; SiteSettingHybrid; SiteSettingUnknown]
  ∧ NormalizeWorkType (WorkType job) = WorkType job.
Proof.
  unfold extractJobsConcurrently. rewrite received_perm, pagesToExtract_take.
  intros (sent & Hsent & Hjob)%list_elem_of_omap. simpl in Hjob. subst sent.
  apply list_elem_of_lookup in Hsent as [i Hi].
  rewrite list_lookup_imap in Hi.
  destruct (take 10 (filter eligible pages) !! i) as [page|] eqn:Hpage; simplify_eq/=.
  assert (Hin : page ∈ take 10 (filter eligible pages)).
  { apply list_elem_of_lookup. by exists i. }
  assert (Hel : eligible page).
  { assert (Hall : page ∈ filter eligible pages).
    { rewrite <- (take_drop 10 (filter eligible pages)). apply elem_of_app. by left. }
    by apply list_elem_of_filter in Hall as [? _]. }
  revert Hi.
  unfold extractWorker, tools.ExtractFromHTML, tools.ExecuteExtract,
    gemini.ExtractJobFromHTML.
  destruct (geminiExtract W i _ (PageURL page)) as [e| |e|raw]; simpl; try done.
  destruct (String.eqb_spec (JobTitle raw) ""); simpl; [done|].
  intros [= <-]. simpl. split_and!; [done|done| | |].
  - by exists page.
  - apply NormalizeSiteSetting_enum.
  - apply NormalizeWorkType_twice.
Qed.

End StagesMore.

(** ** Runs of the pipeline *)

Section RunsMore.
Import models agent.
Variable cfg : Config.
Variable W : Env.

Lemma SearchWithProfile_Ok profile query filters :
  ∃ searchResp, tools.SearchWithProfile W profile query filters = Ok searchResp.
Proof.
  unfold tools.SearchWithProfile, tools.ExecuteSearch, tools.search. by eexists.
Qed.

Lemma rankJobs_cases (scored : list RankedJob) :
  (length scored ≤ sort.maxInsertion)%nat →
  let sorted := insertAll higherScore [] (filter (λ x, 50 ≤ MatchScore x) scored) in
  (MaxJobResults cfg < 0 ∧ rankJobs cfg W scored = Panic)
  ∨ (0 ≤ MaxJobResults cfg < len sorted
     ∧ rankJobs cfg W scored = Ret (take (Z.to_nat (MaxJobResults cfg)) sorted))
  ∨ (len sorted ≤ MaxJobResults cfg ∧ rankJobs cfg W scored = Ret sorted).
Proof.
  intros Hshort sorted. unfold rankJobs.
  rewrite filterJobs_filter.
  rewrite Slice_short by (etrans; [apply length_filter|done]).
  fold sorted.
  destruct (Z.ltb_spec (MaxJobResults cfg) (len sorted)) as [Hlt|Hge]; [|by right; right].
  unfold sliceTo.
  destruct (Z.ltb_spec (MaxJobResults cfg) 0); simpl.
  - left. split; [done|]. reflexivity.
  - destruct (Z.ltb_spec (len sorted) (MaxJobResults cfg)); [lia|].
    right; left. split; [lia|done].
Qed.

(** The parts of a run that returns. *)
Lemma SearchJobs_Ret_parts (input : SearchJobsInput) (out : SearchJobsOutput) :
  SearchJobs cfg W input = Ret out →
  ∃ p searchResp,
    buildUserProfile W input = Ret (Some p)
    ∧ tools.SearchWithProfile W (Some p) (effectiveQuery input p) (Filters input)
      = Ok searchResp
    ∧ Profile out = Some p
    ∧ let pages := fetchPagesConcurrently W (URLs searchResp) in
      let jobs := extractJobsConcurrently W pages in
      Stats out
      = {| URLsFound := len (URLs searchResp); PagesFetched := len pages;
           JobsExtracted := len jobs; JobsScored := len jobs;
           JobsReturned := len (Results out);
           FetchErrors := countFetchErrors pages; ExtractErrors := 0 |}
      ∧ scoredInRun W input = scoreJobsConcurrently W p jobs
      ∧ (length jobs ≤ 10)%nat
      ∧ (Results out = [] ∧ jobs = []
         ∨ rankJobs cfg W (scoreJobsConcurrently W p jobs) = Ret (Results out)).
Proof.
  unfold SearchJobs, scoredInRun.
  destruct (buildUserProfile W input) as [[p|]|e|] eqn:Hbuild; try done.
  destruct (tools.SearchWithProfile W (Some p) (effectiveQuery input p) (Filters input))
    as [searchResp|e] eqn:Hsearch; try done.
  intros Hrun. exists p, searchResp. split; [done|]. split; [done|].
  revert Hrun.
  destruct (Z.eqb_spec (len (URLs searchResp)) 0) as [Hurls|Hurls].
  { apply len_nil_inv in Hurls. rewrite Hurls.
    intros [= <-]. simpl.
    split_and!; first [done | lia | by left]. }
  set (pages := fetchPagesConcurrently W (URLs searchResp)).
  set (jobs := extractJobsConcurrently W pages).
  assert (Hjobs : (length jobs ≤ 10)%nat) by apply extractJobsConcurrently_length.
  destruct (Z.eqb_spec (len jobs) 0) as [Hnone|Hsome].
  { apply len_nil_inv in Hnone. rewrite Hnone.
    intros [= <-]. simpl.
    split_and!; first [done | lia | by left]. }
  unfold maxJobsToScore.
  destruct (Z.ltb_spec 30 (len jobs)) as [Hmany|Hfew].
  { unfold len in Hmany. lia. }
  destruct (rankJobs cfg W (scoreJobsConcurrently W p jobs)) as [res| |] eqn:Hrank;
    try done.
  intros [= <-]. simpl. split_and!; try done.
  - unfold len. by rewrite scoreJobsConcurrently_perm, length_imap.
  - by right.
Qed.

(** The stages never make a run fail once the profile is built. *)
Lemma SearchJobs_after_profile (input : SearchJobsInput) (p : UserProfile) :
  buildUserProfile W input = Ret (Some p) →
  (∃ out, SearchJobs cfg W input = Ret out)
  ∨ (MaxJobResults cfg < 0 ∧ SearchJobs cfg W input = Panic).
Proof.
  intros Hbuild. unfold SearchJobs. rewrite Hbuild.
  destruct (SearchWithProfile_Ok (Some p) (effectiveQuery input p) (Filters input))
    as [searchResp ->].
  destruct (len (URLs searchResp) =? 0); [left; by eexists|].
  set (jobs := extractJobsConcurrently W _).
  destruct (len jobs =? 0); [left; by eexists|].
  assert (Hjobs : (length jobs ≤ 10)%nat) by apply extractJobsConcurrently_length.
  unfold maxJobsToScore.
  destruct (Z.ltb_spec 30 (len jobs)) as [Hmany|Hfew].
  { unfold len in Hmany. lia. }
  destruct (rankJobs_cases (scoreJobsConcurrently W p jobs))
    as [[Hneg ->]|[[_ ->]|[_ ->]]].
  - rewrite scoreJobsConcurrently_perm, length_imap. unfold sort.maxInsertion. lia.
  - by right.
  - left. by eexists.
  - left. by eexists.
Qed.

Lemma buildUserProfile_Fail (input : SearchJobsInput) (e : string) :
  buildUserProfile W input = Fail e →
  ∃ cause,
    (e = "CV PDF parsing failed: " +:+ cause
     ∧ geminiParseCVFromPDF W (CVFileData input) (CVFileName input) = Err cause)
    ∨ (e = "CV parsing failed: " +:+ cause
       ∧ tools.ParseCV W (CVText input) = Err cause).
Proof.
  unfold buildUserProfile.
  destruct ((0 <? len (CVFileData input)) && isPDFFile (CVFileName input)).
  - destruct (geminiParseCVFromPDF W _ _) as [profile|cause].
    + destruct (negb _); [|by destruct (mergeWrites (Filters input))].
      unfold mergeThrough. destruct (refineStep W profile (Query input)); [done|].
      by destruct (mergeWrites (Filters input)).
    + intros [= <-]. exists cause. by left.
  - destruct (negb (String.eqb (CVText input) "")).
    + destruct (tools.ParseCV W (CVText input)) as [profile|cause].
      * destruct (negb _); [|by destruct (mergeWrites (Filters input))].
        unfold mergeThrough. destruct (refineStep W profile (Query input)); [done|].
        by destruct (mergeWrites (Filters input)).
      * intros [= <-]. exists cause. by right.
    + destruct (negb (String.eqb (Query input) "")); [|done].
      by destruct (geminiDeriveProfileFromQuery W (Query input)).
Qed.

(** X10.  The only error that [SearchJobs] returns is the failure to parse
    the CV, PDF or text: the search, fetch, extraction, scoring and
    ranking stages never make a run fail. *)
Theorem SearchJobs_fails_only_on_CV (input : SearchJobsInput) (e : string) :
  SearchJobs cfg W input = Fail e →
  ∃ cause,
    (e = "failed to build user profile: CV PDF parsing failed: " +:+ cause
     ∧ geminiParseCVFromPDF W (CVFileData input) (CVFileName input) = Err cause)
    ∨ (e = "failed to build user profile: CV parsing failed: " +:+ cause
       ∧ tools.ParseCV W (CVText input) = Err cause).
Proof.
  intros Hrun.
  destruct (buildUserProfile W input) as [[p|]|e'|] eqn:Hbuild.
  - destruct (SearchJobs_after_profile input p Hbuild) as [[out Hout]|[_ Hpanic]];
      congruence.
  - unfold SearchJobs in Hrun. by rewrite Hbuild in Hrun.
  - unfold SearchJobs in Hrun. rewrite Hbuild in Hrun. injection Hrun as <-.
    destruct (buildUserProfile_Fail input e' Hbuild) as [cause [[-> ?]|[-> ?]]];
      exists cause; [left|right]; done.
  - unfold SearchJobs in Hrun. by rewrite Hbuild in Hrun.
Qed.


(** X12.  The statistics of a run that returns are consistent: one page
    outcome per URL found; the fetch errors are among the pages; at most
    ten jobs are extracted, and no more than there are pages without
    error; every extracted job is scored; the jobs returned are those in
    the result, no more than the jobs scored; extraction errors are never
    counted.  The profile returned is the profile built. *)
Theorem stats_consistent (input : SearchJobsInput) (out : SearchJobsOutput) :
  SearchJobs cfg W input = Ret out →
  let stats := Stats out in
  PagesFetched stats = URLsFound stats
  ∧ 0 ≤ FetchErrors stats ≤ PagesFetched stats
  ∧ 0 ≤ JobsExtracted stats ≤ Z.min 10 (PagesFetched stats - FetchErrors stats)
  ∧ JobsScored stats = JobsExtracted stats
  ∧ JobsReturned stats = len (Results out)
  ∧ JobsReturned stats ≤ JobsScored stats
  ∧ ExtractErrors stats = 0
  ∧ ∃ p, buildUserProfile W input = Ret (Some p) ∧ Profile out = Some p.
Proof.
  intros Hrun stats. subst stats.
  destruct (SearchJobs_Ret_parts input out Hrun)
    as (p & searchResp & Hbuild & _ & Hprofile & Hstats & Hscored & Hten & Hres).
  set (pages := fetchPagesConcurrently W (URLs searchResp)) in *.
  set (jobs := extractJobsConcurrently W pages) in *.
  rewrite Hstats. simpl.
  assert (Herrors : countFetchErrors pages = len (filter (λ page, Error page ≠ "") pages))
    by apply countFetchErrors_filter.
  assert (Hjobs : (length jobs ≤ length (filter eligible pages))%nat).
  { unfold jobs, extractJobsConcurrently.
    rewrite received_length, pagesToExtract_take.
    etrans; [apply omap_length_le|]. rewrite length_imap, length_take. lia. }
  assert (Hclean : (length (filter eligible pages)
                    + length (filter (λ page, Error page ≠ "") pages)
                    ≤ length pages)%nat).
  { clear. induction pages as [|page pages IH]; [done|].
    rewrite !filter_cons. unfold eligible at 1.
    destruct (decide (Error page = "" ∧ HTML page ≠ "")) as [[Hok _]|Hno],
      (decide (Error page ≠ "")); simpl; try done; lia. }
  assert (Hreturned : len (Results out) ≤ len jobs).
  { destruct Hres as [[-> _]|Hrank]; [unfold len; simpl; lia|].
    apply ranked_facts in Hrank as (Hle & _).
    - unfold len in *. rewrite scoreJobsConcurrently_perm, length_imap in Hle. lia.
    - rewrite scoreJobsConcurrently_perm, length_imap. unfold sort.maxInsertion. lia. }
  split_and!; try done.
  - unfold pages. apply fetchPagesConcurrently_length.
  - rewrite Herrors. unfold len. lia.
  - rewrite Herrors. unfold len. pose proof (length_filter (λ page, Error page ≠ "") pages).
    lia.
  - unfold len. lia.
  - rewrite Herrors. unfold len. lia.
  - by exists p.
Qed.

(** X13.  The result of a run is complete up to the cap: together with
    the jobs left out it is exactly the scored jobs of score 50 or more;
    jobs are left out only when the result has reached the cap, and a job
    left out never scores higher than a job returned. *)
Theorem ranking_keeps_the_best (input : SearchJobsInput) (out : SearchJobsOutput) :
  SearchJobs cfg W input = Ret out →
  ∃ dropped,
    Results out ++ dropped ≡ₚ filter (λ job, 50 ≤ MatchScore job) (scoredInRun W input)
    ∧ (∀ r d, r ∈ Results out → d ∈ dropped → MatchScore d ≤ MatchScore r)
    ∧ (dropped = [] ∨ len (Results out) = MaxJobResults cfg).
Proof.
  intros Hrun.
  destruct (SearchJobs_Ret_parts input out Hrun)
    as (p & searchResp & _ & _ & _ & _ & Hscored & Hten & Hres).
  cbv zeta in *. rewrite Hscored.
  set (jobs := extractJobsConcurrently W _) in *.
  destruct Hres as [[-> ->]|Hrank].
  { exists []. split_and!; [done| |by left]. intros r d Hr. by apply elem_of_nil in Hr. }
  set (scored := scoreJobsConcurrently W p jobs) in *.
  set (kept := filter (λ job, 50 ≤ MatchScore job) scored).
  assert (Hshort : (length scored ≤ sort.maxInsertion)%nat).
  { unfold scored. rewrite scoreJobsConcurrently_perm, length_imap.
    unfold sort.maxInsertion. lia. }
  assert (Hperm : insertAll higherScore [] kept ≡ₚ kept) by apply insertAll_perm.
  assert (Hsorted : descending (insertAll higherScore [] kept)).
  { apply insertAll_descending. constructor. }
  destruct (rankJobs_cases scored Hshort) as [[_ Hpanic]|[[Hcap Hr]|[_ Hr]]].
  - congruence.
  - fold kept in Hcap, Hr. rewrite Hrank in Hr. injection Hr as ->.
    exists (drop (Z.to_nat (MaxJobResults cfg)) (insertAll higherScore [] kept)).
    split_and!.
    + by rewrite take_drop.
    + intros r d Hr Hd. unfold descending in Hsorted.
      rewrite <- (take_drop (Z.to_nat (MaxJobResults cfg))) in Hsorted.
      by apply (StronglySorted_app_1_elem_of _ _ _ r d) in Hsorted.
    + right. unfold len in *. rewrite length_take. lia.
  - fold kept in Hr. rewrite Hrank in Hr. injection Hr as ->.
    exists []. rewrite app_nil_r. split_and!; [done| |by left].
    intros r d _ Hd. by apply elem_of_nil in Hd.
Qed.

End RunsMore.

(** ** The tool registry and the MCP server *)

Section RegistryMore.
Implicit Types (r : gmap string tools.Tool) (tool : tools.Tool).

(** X14.  A registered tool is found under its name; registering it leaves
    the tools of other names as they were; a second tool of the same name
    replaces the first; nothing is found in a new registry. *)
Theorem Register_Get r tool :
  tools.Get (tools.Register r tool) (tools.Name tool) = Some tool
  ∧ (∀ name, name ≠ tools.Name tool →
       tools.Get (tools.Register r tool) name = tools.Get r name)
  ∧ (∀ tool', tools.Name tool' = tools.Name tool →
       tools.Register (tools.Register r tool) tool' = tools.Register r tool')
  ∧ (∀ name, tools.Get tools.NewToolRegistry name = None).
Proof.
  unfold tools.Get, tools.Register, tools.NewToolRegistry. split_and!.
  - apply lookup_insert_eq.
  - intros name Hne. by apply lookup_insert_ne.
  - intros tool' ->. apply insert_insert_eq.
  - intros name. apply lookup_empty.
Qed.

Lemma Register_all_list_to_map (registered : list tools.Tool) :
  foldl tools.Register tools.NewToolRegistry registered
  = list_to_map ((λ tool, (tools.Name tool, tool)) <$> reverse registered).
Proof.
  induction registered as [|tool rest IH] using rev_ind; [done|].
  rewrite foldl_app, reverse_snoc, fmap_cons, list_to_map_cons. simpl.
  by rewrite IH.
Qed.

(** X15.  When tools of pairwise distinct names are registered, as [main]
    and [NewJobAgent] do with the five tools, each of them is found under
    its name and [List] returns exactly these tools, in some order; under
    any other name nothing is found. *)
Theorem registered_tools_listed (registered : list tools.Tool) :
  NoDup (tools.Name <$> registered) →
  let r := foldl tools.Register tools.NewToolRegistry registered in
  (∀ tool, tool ∈ registered → tools.Get r (tools.Name tool) = Some tool)
  ∧ (∀ name, name ∉ tools.Name <$> registered → tools.Get r name = None)
  ∧ tools.List r ≡ₚ registered
  ∧ length (tools.GetToolDefinitions r) = length registered.
Proof.
  intros Hdistinct r. subst r. rewrite Register_all_list_to_map.
  set (pairs := (λ tool, (tools.Name tool, tool)) <$> reverse registered).
  assert (Hfst : pairs.*1 = tools.Name <$> reverse registered).
  { unfold pairs. by rewrite <- list_fmap_compose. }
  assert (Hsnd : pairs.*2 = reverse registered).
  { unfold pairs. rewrite <- list_fmap_compose. apply list_fmap_id. }
  assert (Hnodup : NoDup (pairs.*1)).
  { by rewrite Hfst, fmap_reverse, reverse_Permutation. }
  assert (Hlist : tools.List (list_to_map pairs) ≡ₚ registered).
  { unfold tools.List. rewrite map_to_list_to_map by done.
    rewrite Hsnd. apply reverse_Permutation. }
  unfold tools.Get. split_and!.
  - intros tool Hin. apply elem_of_list_to_map_1; [done|].
    unfold pairs. apply list_elem_of_fmap. exists tool. split; [done|].
    by apply elem_of_reverse.
  - intros name Hname. apply not_elem_of_list_to_map_1.
    rewrite Hfst, fmap_reverse. by rewrite elem_of_reverse.
  - done.
  - unfold tools.GetToolDefinitions. by rewrite length_fmap, Hlist.
Qed.

(** X16.  A call to a tool that is not registered is answered with the
    error [tool not found] and the name, without running any tool; a call
    to a registered tool is answered with what that tool answers, marked
    as an error exactly when the tool failed. *)
Theorem executeTool_dispatch r (name args : string) :
  (tools.Get r name = None →
     mcp.executeTool r name args = Err ("tool not found: " +:+ name)
     ∧ mcp.IsError (mcp.toolCallResult r name args) = true)
  ∧ (∀ tool, tools.Get r name = Some tool →
       mcp.executeTool r name args = tools.Execute tool args
       ∧ (mcp.IsError (mcp.toolCallResult r name args) = true
          ↔ ∃ e, tools.Execute tool args = Err e)
       ∧ mcp.Content (mcp.toolCallResult r name args)
         = [{| mcp.Type_ := "text";
               mcp.Text := match tools.Execute tool args with
                           | Ok result => result
                           | Err e => e
                           end |}]).
Proof.
  split.
  - intros Hmissing. unfold mcp.toolCallResult, mcp.executeTool. by rewrite Hmissing.
  - intros tool Hfound. unfold mcp.toolCallResult, mcp.executeTool. rewrite Hfound.
    destruct (tools.Execute tool args) as [result|e]; simpl.
    + split_and!; [done| |done]. split; [done|]. by intros [e ?].
    + split_and!; [done| |done]. split; [|done]. by exists e.
Qed.

End RegistryMore.

(** ** The HTTP handlers *)

Section HandlersMore.
Import models agent.
Variable cfg : Config.
Variable W : Env.
Variable svc : handlers.Services.

Lemma MergeWithFilters_noFilter (p : UserProfile) : MergeWithFilters p noFilter = p.
Proof. rewrite MergeWithFilters_record. by destruct p. Qed.

Lemma buildResultMessage_empty (out : SearchJobsOutput) (input : SearchJobsInput) :
  SearchJobs cfg W input = Ret out →
  (handlers.buildResultMessage (Stats out) = "" ↔ Results out ≠ []).
Proof.
  intros Hrun.
  destruct (SearchJobs_Ret_parts cfg W input out Hrun)
    as (p & searchResp & _ & _ & _ & Hstats & _).
  cbv zeta in Hstats. rewrite Hstats. unfold handlers.buildResultMessage. simpl.
  destruct (Results out) as [|job rest]; simpl; [split; done|].
  unfold len. simpl. split; [done|]. intros _.
  by destruct (Z.eqb_spec (Z.of_nat (S (length rest))) 0); [lia|].
Qed.

(** X17.  The search handler refuses a request with status 400 exactly
    when, after the look-up of the saved CV, there is neither CV text nor
    CV file nor query, and then runs no search.  Otherwise it answers 500
    only when the CV could not be parsed, and 200 with the results of the
    run: the total is the number of results, the no-match message is set
    exactly when there is none, and the profile is present. *)
Theorem search_handler_replies (req : handlers.SearchRequest) (claims : option string) :
  let cvText := handlers.resolveCVText svc claims req in
  let input := {| CVText := cvText; CVFileData := handlers.ReqCVFileData req;
                  CVFileName := handlers.ReqCVFileName req;
                  Query := handlers.ReqQuery req;
                  Filters := handlers.ReqFilters req |} in
  let noInput := cvText = "" ∧ handlers.ReqCVFileData req = []
                 ∧ handlers.ReqQuery req = "" in
  match handlers.SearchJobs cfg W svc (Some req) claims with
  | handlers.Replied (handlers.ReplyError status body) =>
      handlers.Code body = status
      ∧ (status = 400 ∧ noInput
         ∨ status = 500 ∧ ¬ noInput
           ∧ SearchJobs cfg W input = Fail (handlers.Details body)
           ∧ ∃ cause,
               geminiParseCVFromPDF W (CVFileData input) (CVFileName input) = Err cause
               ∨ tools.ParseCV W cvText = Err cause)
  | handlers.Replied (handlers.ReplyOK body) =>
      ¬ noInput
      ∧ (∃ out, SearchJobs cfg W input = Ret out
                ∧ handlers.RespResults body = Results out
                ∧ handlers.RespProfile body = Profile out)
      ∧ handlers.TotalResults body = len (handlers.RespResults body)
      ∧ (handlers.Message body = "" ↔ handlers.RespResults body ≠ [])
      ∧ handlers.RespProfile body ≠ None
      ∧ handlers.CVSaved body = handlers.saveCVToProfile svc claims req
  | handlers.Panicked => ¬ noInput ∧ SearchJobs cfg W input = Panic
  end.
Proof.
  intros cvText input noInput. unfold handlers.SearchJobs.
  fold cvText. fold input.
  assert (Hempty : String.eqb cvText "" && (len (handlers.ReqCVFileData req) =? 0)
                   && String.eqb (handlers.ReqQuery req) "" = true ↔ noInput).
  { unfold noInput. rewrite !andb_true_iff, !String.eqb_eq, Z.eqb_eq.
    split.
    - intros [[Ht Hf] Hq]. split_and!; [done|by apply len_nil_inv|done].
    - intros (Ht & Hf & Hq). rewrite Hf. by split_and!. }
  destruct (String.eqb cvText "" && (len (handlers.ReqCVFileData req) =? 0)
            && String.eqb (handlers.ReqQuery req) "") eqn:Hcheck.
  { assert (Hno : noInput) by by apply Hempty.
    destruct claims; simpl; (split; [done|by left]). }
  assert (Hinput : ¬ noInput).
  { intros Hno. apply Hempty in Hno. discriminate. }
  destruct (SearchJobs cfg W input) as [out|e|] eqn:Hrun.
  - split_and!; simpl; try done.
    + by exists out.
    + by apply (buildResultMessage_empty out input).
    + destruct (SearchJobs_Ret_parts cfg W input out Hrun) as (p & _ & _ & _ & -> & _).
      done.
  - simpl. split; [done|]. right. split_and!; try done.
    unfold SearchJobs in Hrun.
    destruct (buildUserProfile W input) as [[p|]|e'|] eqn:Hbuild.
    + destruct (SearchJobs_after_profile cfg W input p Hbuild) as [[out Hout]|[_ Hpanic]];
        unfold SearchJobs in *; rewrite Hbuild in *; congruence.
    + done.
    + destruct (buildUserProfile_Fail W input e' Hbuild) as [cause [[_ ?]|[_ ?]]];
        exists cause; [by left|by right].
    + done.
  - done.
Qed.

(** X18.  The CV handler answers a non-empty CV text with the profile that
    the parser gave and the refinement with the query [any job] kept, or
    with status 500 when the parser failed; it panics when the refinement
    call fails, and with a negative result cap.  It never answers
    [Failed to extract profile from CV]. *)
Theorem cv_handler_replies (cvText : string) :
  cvText ≠ "" →
  match handlers.ParseCV cfg W (handlers.CVBound cvText) with
  | handlers.Replied (handlers.ReplyOK body) =>
      ∃ parsed,
        tools.ParseCV W cvText = Ok parsed
        ∧ refineStep W parsed "any job" = Some (handlers.ParsedProfile body)
  | handlers.Replied (handlers.ReplyError status body) =>
      status = 500
      ∧ handlers.ErrorText body = "CV parsing failed"
      ∧ ∃ cause,
          tools.ParseCV W cvText = Err cause
          ∧ handlers.Details body
            = "failed to build user profile: CV parsing failed: " +:+ cause
  | handlers.Panicked =>
      (∃ parsed, tools.ParseCV W cvText = Ok parsed
                 ∧ refineStep W parsed "any job" = None)
      ∨ MaxJobResults cfg < 0
  end.
Proof.
  intros Htext. unfold handlers.ParseCV.
  apply String.eqb_neq in Htext as Hneq. rewrite Hneq.
  set (input := {| CVText := cvText; CVFileData := []; CVFileName := "";
                   Query := "any job"; Filters := noFilter |}).
  assert (Hbuild : buildUserProfile W input
                   = match tools.ParseCV W cvText with
                     | Err cause => Fail ("CV parsing failed: " +:+ cause)
                     | Ok parsed =>
                         match refineStep W parsed "any job" with
                         | Some p => Ret (Some p)
                         | None => Ret None
                         end
                     end).
  { unfold buildUserProfile, input.
    with_strategy opaque [tools.ParseCV refineStep MergeWithFilters String.eqb] cbn.
    change ((0 <? len (@nil Byte.byte)) && false) with false. cbv iota.
    rewrite Hneq. cbn [negb].
    destruct (tools.ParseCV W cvText) as [parsed|cause]; [|done].
    change (String.eqb "any job" "") with false. cbn [negb].
    destruct (refineStep W parsed "any job") as [p|]; cbn [mergeThrough]; [|done].
    by rewrite MergeWithFilters_noFilter. }
  destruct (tools.ParseCV W cvText) as [parsed|cause] eqn:Hparse.
  - destruct (refineStep W parsed "any job") as [p|] eqn:Hrefine.
    + destruct (SearchJobs_after_profile cfg W input p Hbuild) as [[out Hout]|[Hneg ->]].
      * rewrite Hout.
        destruct (SearchJobs_Ret_parts cfg W input out Hout) as (p' & _ & Hp & _ & -> & _).
        exists parsed. split; [done|]. simpl. congruence.
      * by right.
    + unfold SearchJobs. rewrite Hbuild. left. by exists parsed.
  - unfold SearchJobs. rewrite Hbuild. split_and!; try done. by exists cause.
Qed.

End HandlersMore.

(** ** Cleaning text *)

Section TextMore.

Lemma keepBytes_length (n : nat) (s : string) :
  String.length (tools.keepBytes n s) = (n `min` String.length s)%nat.
Proof.
  revert s. induction n as [|n IH]; intros [|c s]; simpl; try done.
  by rewrite IH.
Qed.

Lemma dropBytes_length (n : nat) (s : string) :
  String.length (tools.dropBytes n s) = (String.length s - n)%nat.
Proof.
  revert s. induction n as [|n IH]; intros [|c s]; simpl; try done; lia.
Qed.

Lemma keepBytes_app (a b : string) : tools.keepBytes (String.length a) (a +:+ b) = a.
Proof.
  induction a as [|c a IH]; [by destruct b|].
  rewrite append_cons. simpl. by rewrite IH.
Qed.

Lemma takeBytes_length (n : N) (s : string) :
  (N.of_nat (String.length (gemini.takeBytes n s)) ≤ n)%N.
Proof.
  revert n. induction s as [|c s IH]; intros n; simpl; [lia|].
  destruct (N.eqb_spec n 0) as [->|Hn]; simpl; [lia|].
  specialize (IH (N.pred n)). lia.
Qed.

Lemma takeBytes_shorter (n : N) (s : string) :
  (String.length (gemini.takeBytes n s) ≤ String.length s)%nat.
Proof.
  revert n. induction s as [|c s IH]; intros n; simpl; [lia|].
  destruct (N.eqb_spec n 0); simpl; [lia|].
  specialize (IH (N.pred n)). lia.
Qed.

Lemma stripBlocks_length (rounds : nat) (open close html : string) :
  (String.length (tools.stripBlocks rounds open close html) ≤ String.length html)%nat.
Proof.
  revert html. induction rounds as [|rounds IH]; intros html; simpl; [lia|].
  destruct (tools.Index (Strings.ToLower html) open) as [start|]; [|lia].
  destruct (tools.Index (Strings.ToLower (tools.dropBytes start html)) close)
    as [end_|]; [|lia].
  etrans; [apply IH|].
  rewrite length_append, keepBytes_length, dropBytes_length. lia.
Qed.

Lemma prefix_length (old s : string) :
  String.prefix old s = true → (String.length old ≤ String.length s)%nat.
Proof.
  revert s. induction old as [|c old IH]; intros s; simpl; [lia|].
  destruct s as [|d s]; simpl; [done|].
  destruct (ascii_dec c d); [|done].
  intros Hrest%IH. lia.
Qed.

Lemma replaceFrom_length (old new : string) (skip : nat) (s : string) :
  (String.length new ≤ String.length old)%nat →
  (String.length (tools.replaceFrom skip old new s) + skip `min` String.length s
   ≤ String.length s)%nat.
Proof.
  intros Hshorter. revert skip.
  induction s as [|c s IH]; intros skip; [simpl; lia|].
  cbn [tools.replaceFrom]. destruct skip as [|skip].
  - destruct (String.prefix old (String c s)) eqn:Hprefix.
    + apply prefix_length in Hprefix. simpl in Hprefix.
      rewrite length_append.
      specialize (IH (String.length old - 1)%nat). simpl. lia.
    + specialize (IH 0%nat). simpl. lia.
  - specialize (IH skip). simpl. lia.
Qed.

Lemma collapse_length (rounds : nat) (old new html : string) :
  (String.length new ≤ String.length old)%nat →
  (String.length (tools.collapse rounds old new html) ≤ String.length html)%nat.
Proof.
  intros Hshorter. revert html.
  induction rounds as [|rounds IH]; intros html; simpl; [lia|].
  destruct (Strings.Contains html old); [|lia].
  etrans; [apply IH|].
  pose proof (replaceFrom_length old new 0 html Hshorter).
  unfold tools.ReplaceAll. lia.
Qed.

Lemma trimLeft_length (s : string) :
  (String.length (tools.trimLeft s) ≤ String.length s)%nat.
Proof.
  induction s as [|c s IH]; simpl; [lia|].
  destruct (tools.isSpace c); simpl; lia.
Qed.

Lemma trimRight_length (s : string) :
  (String.length (tools.trimRight s) ≤ String.length s)%nat.
Proof.
  induction s as [|c s IH]; simpl; [lia|].
  destruct (tools.trimRight s) as [|d kept]; [destruct (tools.isSpace c)|];
    simpl in *; lia.
Qed.

Lemma cleanHTML_length (html : string) :
  (String.length (tools.cleanHTML html) ≤ String.length html)%nat.
Proof.
  unfold tools.cleanHTML, tools.TrimSpace.
  etrans; [apply trimRight_length|].
  etrans; [apply trimLeft_length|].
  etrans; [apply collapse_length; simpl; lia|].
  etrans; [apply collapse_length; simpl; lia|].
  etrans; [apply stripBlocks_length|].
  apply stripBlocks_length.
Qed.

(** What [trimLeft] leaves starts with no white space. *)
Lemma trimLeft_fixed (s : string) :
  match s with
  | String c _ => tools.isSpace c = false
  | EmptyString => True
  end →
  tools.trimLeft s = s.
Proof. destruct s as [|c s]; [done|]. simpl. by intros ->. Qed.

Lemma trimLeft_head (s : string) :
  match tools.trimLeft s with
  | String c _ => tools.isSpace c = false
  | EmptyString => True
  end.
Proof.
  induction s as [|c s IH]; [done|]. simpl.
  destruct (tools.isSpace c) eqn:Hc; [done|]. simpl. done.
Qed.

Lemma trimRight_head (s : string) :
  match s with
  | String c _ => tools.isSpace c = false
  | EmptyString => True
  end →
  match tools.trimRight s with
  | String c _ => tools.isSpace c = false
  | EmptyString => True
  end.
Proof.
  destruct s as [|c s]; [done|]. simpl. intros Hc.
  destruct (tools.trimRight s); [by rewrite Hc|done].
Qed.

Lemma trimRight_twice (s : string) :
  tools.trimRight (tools.trimRight s) = tools.trimRight s.
Proof.
  induction s as [|c s IH]; [done|]. simpl.
  destruct (tools.trimRight s) as [|d kept] eqn:Hkept.
  - destruct (tools.isSpace c) eqn:Hc; [done|]. simpl. by rewrite Hc.
  - change (tools.trimRight (String c (String d kept)))
      with (match tools.trimRight (String d kept) with
            | EmptyString => if tools.isSpace c then EmptyString
                             else String c EmptyString
            | k => String c k
            end).
    by rewrite IH.
Qed.

Lemma TrimSpace_twice (s : string) :
  tools.TrimSpace (tools.TrimSpace s) = tools.TrimSpace s.
Proof.
  unfold tools.TrimSpace.
  rewrite (trimLeft_fixed (tools.trimRight (tools.trimLeft s))).
  - apply trimRight_twice.
  - apply trimRight_head, trimLeft_head.
Qed.

(** X19.  The text of a fetched page, for a reply with status 200 and an
    ASCII body: it is at most 5 MiB long, never longer than the body, and
    has no white space left to trim at either end. *)
Theorem fetched_text_clean (W : Env) (i : nat) (url body : string) :
  clientDo W i url = Response 200 (Ok body) →
  isASCII body = true →
  let page := agent.fetchWorker W i url in
  gemini.strlen (models.HTML page) ≤ Z.of_N tools.maxBytes
  ∧ gemini.strlen (models.HTML page) ≤ gemini.strlen body
  ∧ tools.TrimSpace (models.HTML page) = models.HTML page.
Proof.
  intros Hdo _ page.
  assert (Hpage : models.HTML page = tools.cleanHTML (gemini.takeBytes tools.maxBytes body)).
  { unfold page.
    destruct (fetchWorker_cases W i url) as [(body' & Hdo' & ->)|(Hnot & _)].
    - rewrite Hdo in Hdo'. by injection Hdo' as <-.
    - by destruct (Hnot body). }
  rewrite Hpage. unfold gemini.strlen.
  pose proof (cleanHTML_length (gemini.takeBytes tools.maxBytes body)).
  pose proof (takeBytes_length tools.maxBytes body).
  pose proof (takeBytes_shorter tools.maxBytes body).
  split_and!; [lia|lia|].
  unfold tools.cleanHTML. apply TrimSpace_twice.
Qed.

Lemma ToLower_length (s : string) :
  String.length (Strings.ToLower s) = String.length s.
Proof. induction s as [|c s IH]; [done|]. simpl. by rewrite IH. Qed.

Lemma ToLower_dropBytes (n : nat) (s : string) :
  Strings.ToLower (tools.dropBytes n s) = tools.dropBytes n (Strings.ToLower s).
Proof. revert s. induction n as [|n IH]; intros [|c s]; simpl; by try rewrite IH. Qed.

Lemma keep_drop (n : nat) (s : string) :
  tools.keepBytes n s +:+ tools.dropBytes n s = s.
Proof.
  revert s. induction n as [|n IH]; intros [|c s]; try done.
  simpl. rewrite append_cons. by rewrite IH.
Qed.

Lemma substring_dropBytes (n : nat) (s : string) :
  String.substring n (String.length s - n) s = tools.dropBytes n s.
Proof.
  revert s. induction n as [|n IH]; intros [|c s]; try done.
  - simpl. by rewrite substring_all.
  - simpl. apply IH.
Qed.

Lemma HasSuffix_dropBytes (s suffix : string) :
  Strings.HasSuffix s suffix = true →
  tools.dropBytes (String.length s - String.length suffix) s = suffix.
Proof.
  unfold Strings.HasSuffix. intros [Hle Heq]%andb_true_iff.
  apply Nat.leb_le in Hle. apply String.eqb_eq in Heq.
  rewrite <- substring_dropBytes.
  by replace (String.length s - (String.length s - String.length suffix))%nat
    with (String.length suffix) by lia.
Qed.

(** X20.  A file name counts as a PDF exactly when it ends with [.pdf] in
    any letter case. *)
Theorem isPDFFile_extension (filename : string) :
  agent.isPDFFile filename = true
  ↔ ∃ base ext, filename = base +:+ ext ∧ Strings.ToLower ext = ".pdf".
Proof.
  unfold agent.isPDFFile. split.
  - intros Hsuffix%HasSuffix_dropBytes.
    rewrite ToLower_length in Hsuffix.
    exists (tools.keepBytes (String.length filename - String.length ".pdf") filename),
           (tools.dropBytes (String.length filename - String.length ".pdf") filename).
    split; [by rewrite keep_drop|]. by rewrite ToLower_dropBytes.
  - intros (base & ext & -> & Hext).
    rewrite ToLower_app, Hext. apply HasSuffix_app.
Qed.

Lemma trimRight_app_kept (a b : string) :
  tools.trimRight b ≠ "" → tools.trimRight (a +:+ b) = a +:+ tools.trimRight b.
Proof.
  intros Hb. induction a as [|c a IH]; [done|].
  rewrite !append_cons. simpl. rewrite IH.
  destruct (tools.trimRight b) as [|d kept] eqn:Hkept; [done|].
  by destruct a.
Qed.

Lemma trimRight_app_dropped (a b : string) :
  tools.trimRight b = "" → tools.trimRight (a +:+ b) = tools.trimRight a.
Proof.
  intros Hb. induction a as [|c a IH]; [done|].
  rewrite !append_cons. simpl. by rewrite IH.
Qed.

Lemma TrimSpace_fixed (s : string) :
  tools.TrimSpace s = s → tools.trimLeft s = s ∧ tools.trimRight s = s.
Proof.
  unfold tools.TrimSpace. intros Hfixed.
  pose proof (trimLeft_length s) as Hleft.
  pose proof (trimRight_length (tools.trimLeft s)) as Hright.
  rewrite Hfixed in Hright.
  assert (Hsame : tools.trimLeft s = s).
  { destruct s as [|c s]; [done|]. simpl in *.
    destruct (tools.isSpace c); [|done].
    pose proof (trimLeft_length s). lia. }
  split; [done|]. by rewrite Hsame in Hfixed.
Qed.

Lemma fenced_body (body : string) :
  tools.TrimSpace body = body →
  tools.TrimSpace (tools.newline +:+ body +:+ tools.newline) = body.
Proof.
  intros [Hleft Hright]%TrimSpace_fixed. unfold tools.TrimSpace.
  assert (Hnl : tools.trimLeft (tools.newline +:+ body +:+ tools.newline)
                = tools.trimLeft (body +:+ tools.newline)) by done.
  rewrite Hnl. destruct body as [|c body]; [done|].
  assert (Hc : tools.isSpace c = false).
  { simpl in Hleft. destruct (tools.isSpace c) eqn:Hc; [|done].
    pose proof (trimLeft_length body) as Hlen. rewrite Hleft in Hlen.
    simpl in Hlen. lia. }
  rewrite append_cons. simpl tools.trimLeft. rewrite Hc.
  rewrite <- append_cons. by rewrite trimRight_app_dropped.
Qed.

Lemma TrimSuffix_app (a b : string) : geminiText.TrimSuffix (a +:+ b) b = a.
Proof.
  unfold geminiText.TrimSuffix. rewrite HasSuffix_app, length_append.
  replace (String.length a + String.length b - String.length b)%nat
    with (String.length a) by lia.
  apply keepBytes_app.
Qed.

Lemma append_assoc3 (a b c : string) : a +:+ b +:+ c = (a +:+ b) +:+ c.
Proof.
  induction a as [|x a IH]; [done|]. rewrite !append_cons. by rewrite IH.
Qed.

(** X21.  [cleanJSON] unwraps a fenced answer: for an ASCII body with no
    white space at its ends, the body between an opening fence (with or
    without the [json] tag) on its own line and a closing fence on its own
    line comes back unchanged. *)
Theorem cleanJSON_unwraps_fence (body : string) :
  isASCII body = true →
  tools.TrimSpace body = body →
  geminiText.cleanJSON
    (geminiText.fenceJSON +:+ tools.newline +:+ body +:+ tools.newline
     +:+ geminiText.fence) = body
  ∧ geminiText.cleanJSON
      (geminiText.fence +:+ tools.newline +:+ body +:+ tools.newline
       +:+ geminiText.fence) = body.
Proof.
  intros _ Hbody.
  assert (Hinner : geminiText.TrimSuffix
                     (tools.newline +:+ body +:+ tools.newline +:+ geminiText.fence)
                     geminiText.fence
                   = tools.newline +:+ body +:+ tools.newline).
  { rewrite (append_assoc3 body), append_assoc3. apply TrimSuffix_app. }
  assert (Hwhole : ∀ open : string,
             tools.trimLeft (open +:+ tools.newline +:+ body +:+ tools.newline
                             +:+ geminiText.fence)
             = open +:+ tools.newline +:+ body +:+ tools.newline +:+ geminiText.fence →
             tools.TrimSpace (open +:+ tools.newline +:+ body +:+ tools.newline
                              +:+ geminiText.fence)
             = open +:+ tools.newline +:+ body +:+ tools.newline +:+ geminiText.fence).
  { intros open Hopen. unfold tools.TrimSpace. rewrite Hopen.
    rewrite (append_assoc3 body), (append_assoc3 tools.newline), append_assoc3.
    by rewrite trimRight_app_kept. }
  split.
  - unfold geminiText.cleanJSON. rewrite Hwhole by done.
    change (geminiText.TrimPrefix
              (geminiText.fenceJSON +:+ tools.newline +:+ body +:+ tools.newline
               +:+ geminiText.fence) geminiText.fenceJSON)
      with (tools.newline +:+ body +:+ tools.newline +:+ geminiText.fence).
    change (geminiText.TrimPrefix
              (tools.newline +:+ body +:+ tools.newline +:+ geminiText.fence)
              geminiText.fence)
      with (tools.newline +:+ body +:+ tools.newline +:+ geminiText.fence).
    rewrite Hinner. by apply fenced_body.
  - unfold geminiText.cleanJSON. rewrite Hwhole by done.
    change (geminiText.TrimPrefix
              (geminiText.fence +:+ tools.newline +:+ body +:+ tools.newline
               +:+ geminiText.fence) geminiText.fenceJSON)
      with (geminiText.fence +:+ tools.newline +:+ body +:+ tools.newline
            +:+ geminiText.fence).
    change (geminiText.TrimPrefix
              (geminiText.fence +:+ tools.newline +:+ body +:+ tools.newline
               +:+ geminiText.fence) geminiText.fence)
      with (tools.newline +:+ body +:+ tools.newline +:+ geminiText.fence).
    rewrite Hinner. by apply fenced_body.
Qed.

Lemma prefix_fenceJSON (text : string) :
  String.prefix geminiText.fence text = false →
  String.prefix geminiText.fenceJSON text = false.
Proof.
  unfold geminiText.fence, geminiText.fenceJSON.
  destruct text as [|a [|b [|c text]]]; cbn [String.prefix]; try done;
    repeat (destruct (ascii_dec _ _); try done); by destruct text.
Qed.

(** X22.  [cleanJSON] leaves an answer without a fence as it is: ASCII
    text with no white space at its ends that neither starts nor ends with
    a fence comes back unchanged. *)
Theorem cleanJSON_keeps_plain (text : string) :
  isASCII text = true →
  tools.TrimSpace text = text →
  String.prefix geminiText.fence text = false →
  Strings.HasSuffix text geminiText.fence = false →
  geminiText.cleanJSON text = text.
Proof.
  intros _ Htrim Hprefix Hsuffix.
  unfold geminiText.cleanJSON, geminiText.TrimPrefix, geminiText.TrimSuffix.
  rewrite Htrim, (prefix_fenceJSON text Hprefix), Hprefix, Hsuffix.
  exact Htrim.
Qed.

End TextMore.

(** ** The further properties on concrete runs *)

Section MoreRuns.
Import models agent Examples.

Local Abbreviation golang := (queryOnly "golang developer jakarta").
Local Abbreviation firstURL := "https://glints.com/opportunities/jobs/1".
Local Abbreviation answering := (oneSite 200 RefineParsed).

Lemma NewUserProfileFromQuery_merge_witness :
  0 ≤ FilterMinSalary withSalary
  ∧ 0 ≤ FilterMaxSalary withSalary
  ∧ NewUserProfileFromQuery "golang developer" withSalary
    = MergeWithFilters emptyProfile withSalary
  ∧ MinSalary (NewUserProfileFromQuery "golang developer" withSalary) = 8000000.
Proof.
  split; [simpl; lia|]. split; [simpl; lia|]. split; [|reflexivity].
  apply (NewUserProfileFromQuery_merge "golang developer" withSalary); simpl; lia.
Defined.

Lemma ExtractJobFromHTML_normalizes_witness :
  ∃ job,
    gemini.ExtractJobFromHTML answering 0 "<html><body>Go Engineer</body></html>" firstURL
    = Ok job
    ∧ URL job = firstURL
    ∧ Source job = "web"
    ∧ SiteSetting job
        ∈ [SiteSettingWFH; SiteSettingWFO; SiteSettingHybrid; SiteSettingUnknown]
    ∧ NormalizeWorkType (WorkType job) = WorkType job.
Proof.
  eexists. split; [vm_compute; reflexivity|].
  destruct (ExtractJobFromHTML_normalizes answering 0
              "<html><body>Go Engineer</body></html>" firstURL _ eq_refl)
    as (HURL & Hsource & Hsite & Hwork & _).
  split; [exact HURL|]. split; [exact Hsource|]. split; [exact Hsite|exact Hwork].
Defined.

Lemma extracted_postings_witness :
  ∃ job,
    extractJobsConcurrently answering [pageOf firstURL] = [job]
    ∧ JobTitle job ≠ ""
    ∧ Source job = "web"
    ∧ (∃ page, page ∈ take 10 (filter eligible [pageOf firstURL])
               ∧ eligible page ∧ URL job = PageURL page)
    ∧ SiteSetting job
        ∈ [SiteSettingWFH; SiteSettingWFO; SiteSettingHybrid; SiteSettingUnknown]
    ∧ NormalizeWorkType (WorkType job) = WorkType job.
Proof.
  eexists. split; [vm_compute; reflexivity|].
  apply (extracted_postings answering [pageOf firstURL]).
  vm_compute. left.
Defined.

Lemma SearchJobs_fails_only_on_CV_witness :
  SearchJobs defaults parserDown cvOnly
  = Fail ("failed to build user profile: CV parsing failed: "
          +:+ "CV parsing failed: failed to generate content: unavailable")
  ∧ ∃ cause,
      ("failed to build user profile: CV parsing failed: "
       +:+ "CV parsing failed: failed to generate content: unavailable"
       = "failed to build user profile: CV PDF parsing failed: " +:+ cause
       ∧ geminiParseCVFromPDF parserDown (CVFileData cvOnly) (CVFileName cvOnly)
         = Err cause)
      ∨ ("failed to build user profile: CV parsing failed: "
         +:+ "CV parsing failed: failed to generate content: unavailable"
         = "failed to build user profile: CV parsing failed: " +:+ cause
         ∧ tools.ParseCV parserDown (CVText cvOnly) = Err cause).
Proof.
  split; [vm_compute; reflexivity|].
  apply (SearchJobs_fails_only_on_CV defaults parserDown cvOnly).
  vm_compute. reflexivity.
Defined.


Lemma stats_consistent_witness :
  ∃ out,
    SearchJobs defaults answering golang = Ret out
    ∧ Stats out = {| URLsFound := 3; PagesFetched := 3; JobsExtracted := 3;
                     JobsScored := 3; JobsReturned := 2; FetchErrors := 0;
                     ExtractErrors := 0 |}
    ∧ PagesFetched (Stats out) = URLsFound (Stats out)
    ∧ 0 ≤ FetchErrors (Stats out) ≤ PagesFetched (Stats out)
    ∧ 0 ≤ JobsExtracted (Stats out)
        ≤ Z.min 10 (PagesFetched (Stats out) - FetchErrors (Stats out))
    ∧ JobsScored (Stats out) = JobsExtracted (Stats out)
    ∧ JobsReturned (Stats out) = len (Results out)
    ∧ JobsReturned (Stats out) ≤ JobsScored (Stats out)
    ∧ ExtractErrors (Stats out) = 0
    ∧ ∃ p, buildUserProfile answering golang = Ret (Some p) ∧ Profile out = Some p.
Proof.
  eexists. split; [vm_compute; reflexivity|]. split; [reflexivity|].
  apply (stats_consistent defaults answering golang).
  vm_compute. reflexivity.
Defined.

Lemma ranking_keeps_the_best_witness :
  ∃ out,
    SearchJobs {| MaxJobResults := 1 |} answering golang = Ret out
    ∧ MatchScore <$> Results out = [80]
    ∧ ∃ dropped,
        Results out ++ dropped
          ≡ₚ filter (λ job, 50 ≤ MatchScore job) (scoredInRun answering golang)
        ∧ (∀ r d, r ∈ Results out → d ∈ dropped → MatchScore d ≤ MatchScore r)
        ∧ (dropped = [] ∨ len (Results out) = MaxJobResults {| MaxJobResults := 1 |}).
Proof.
  eexists. split; [vm_compute; reflexivity|]. split; [reflexivity|].
  apply (ranking_keeps_the_best {| MaxJobResults := 1 |} answering golang).
  vm_compute. reflexivity.
Defined.

Lemma registered_tools_listed_witness :
  let r := foldl tools.Register tools.NewToolRegistry fiveTools in
  NoDup (tools.Name <$> fiveTools)
  ∧ tools.Get r "fetch_page_html" = Some (echo "fetch_page_html")
  ∧ tools.Get r "delete_job" = None
  ∧ tools.List r ≡ₚ fiveTools
  ∧ length (tools.GetToolDefinitions r) = 5%nat.
Proof.
  assert (Hnames : NoDup (tools.Name <$> fiveTools)).
  { apply (bool_decide_unpack _). vm_compute. exact I. }
  destruct (registered_tools_listed fiveTools Hnames) as (Hget & Hnone & Hlist & Hlen).
  split; [exact Hnames|]. split; [|split; [|split; [exact Hlist|exact Hlen]]].
  - apply (Hget (echo "fetch_page_html")). right. left.
  - apply Hnone. apply (bool_decide_unpack _). vm_compute. exact I.
Defined.

Lemma executeTool_dispatch_witness :
  let r := foldl tools.Register tools.NewToolRegistry fiveTools in
  mcp.executeTool r "delete_job" "{}" = Err "tool not found: delete_job"
  ∧ mcp.executeTool r "parse_cv" "{}" = Ok "{}"
  ∧ mcp.IsError (mcp.toolCallResult r "parse_cv" "") = true.
Proof.
  intros r.
  destruct (executeTool_dispatch r "delete_job" "{}") as [Hmissing _].
  destruct (executeTool_dispatch r "parse_cv" "{}") as [_ Hfound].
  destruct (executeTool_dispatch r "parse_cv" "") as [_ Hfailed].
  split; [exact (proj1 (Hmissing eq_refl))|].
  split; [exact (proj1 (Hfound (echo "parse_cv") eq_refl))|].
  apply (proj1 (proj2 (Hfailed (echo "parse_cv") eq_refl))).
  by eexists.
Defined.


Lemma cv_handler_replies_witness :
  CVText cvOnly ≠ ""
  ∧ handlers.ParseCV defaults answering (handlers.CVBound (CVText cvOnly))
    = handlers.Replied (handlers.ReplyOK {| handlers.ParsedProfile := backendDev |})
  ∧ handlers.ParseCV defaults refineDown (handlers.CVBound (CVText cvOnly))
    = handlers.Panicked
  ∧ ∃ parsed,
      tools.ParseCV answering (CVText cvOnly) = Ok parsed
      ∧ refineStep answering parsed "any job" = Some backendDev.
Proof.
  split; [discriminate|].
  assert (Hrun : handlers.ParseCV defaults answering (handlers.CVBound (CVText cvOnly))
                 = handlers.Replied
                     (handlers.ReplyOK {| handlers.ParsedProfile := backendDev |})).
  { vm_compute. reflexivity. }
  split; [exact Hrun|]. split; [vm_compute; reflexivity|].
  pose proof (cv_handler_replies defaults answering (CVText cvOnly)
                ltac:(discriminate)) as Hreply.
  rewrite Hrun in Hreply. exact Hreply.
Defined.

Lemma fetched_text_clean_witness :
  clientDo answering 0 firstURL = Response 200 (Ok "<html><body>Go  Engineer</body></html>")
  ∧ isASCII "<html><body>Go  Engineer</body></html>" = true
  ∧ gemini.strlen (HTML (fetchWorker answering 0 firstURL)) ≤ Z.of_N tools.maxBytes
  ∧ gemini.strlen (HTML (fetchWorker answering 0 firstURL))
    ≤ gemini.strlen "<html><body>Go  Engineer</body></html>"
  ∧ tools.TrimSpace (HTML (fetchWorker answering 0 firstURL))
    = HTML (fetchWorker answering 0 firstURL).
Proof.
  split; [reflexivity|]. split; [reflexivity|].
  apply (fetched_text_clean answering 0 firstURL
           "<html><body>Go  Engineer</body></html>"); reflexivity.
Defined.

Lemma cleanJSON_unwraps_fence_witness :
  isASCII "{title: Go Engineer}" = true
  ∧ tools.TrimSpace "{title: Go Engineer}" = "{title: Go Engineer}"
  ∧ geminiText.cleanJSON
      (geminiText.fenceJSON +:+ tools.newline +:+ "{title: Go Engineer}"
       +:+ tools.newline +:+ geminiText.fence)
    = "{title: Go Engineer}"
  ∧ geminiText.cleanJSON
      (geminiText.fence +:+ tools.newline +:+ "{title: Go Engineer}"
       +:+ tools.newline +:+ geminiText.fence)
    = "{title: Go Engineer}".
Proof.
  split; [reflexivity|]. split; [reflexivity|].
  apply (cleanJSON_unwraps_fence "{title: Go Engineer}"); reflexivity.
Defined.

Lemma cleanJSON_keeps_plain_witness :
  isASCII "{title: Go Engineer}" = true
  ∧ tools.TrimSpace "{title: Go Engineer}" = "{title: Go Engineer}"
  ∧ String.prefix geminiText.fence "{title: Go Engineer}" = false
  ∧ Strings.HasSuffix "{title: Go Engineer}" geminiText.fence = false
  ∧ geminiText.cleanJSON "{title: Go Engineer}" = "{title: Go Engineer}".
Proof.
  split; [reflexivity|]. split; [reflexivity|]. split; [reflexivity|].
  split; [reflexivity|].
  apply (cleanJSON_keeps_plain "{title: Go Engineer}"); reflexivity.
Defined.

End MoreRuns.
